(** * Ghana Task Hub: the tasks API (backend/app/api/v1/tasks.py)

    A shallow embedding of the task endpoints and of the part of the task
    model they touch, followed by the properties of task creation, listing,
    update and cancellation.

    Conventions of the embedding
    - Python [str] is [string]; [len] is [String.length].
    - Python [int] is [Z]; [//] is [Z.div] (both round towards minus
      infinity).
    - Python [float] is a binary64 primitive float.
    - [datetime] values and database timestamps are [Z] (microseconds).
    - The [AsyncSession] is an explicit state: the rows of the [tasks]
      table, the log of statements sent through it and the server clock
      read by [NOW()].
    - Exceptions are values of [exn]; a handler is a function from a
      session to an outcome and a session. *)

From Stdlib Require Import ZArith List String Ascii Bool Lia Floats.
From Stdlib Require Import Sorting.Permutation Sorting.Sorted DecimalString.
Import ListNotations.

Set Warnings "-inexact-float".

Open Scope string_scope.
Open Scope Z_scope.

(** ** app/models/task.py *)

Inductive TaskStatus :=
| CREATED | ASSIGNED | EN_ROUTE | ON_SITE | IN_PROGRESS
| COMPLETED | CANCELLED | DISPUTED.

Inductive TaskPriority := LOW | MEDIUM | HIGH | URGENT.

Module TaskStatus.
Definition value (s : TaskStatus) : string :=
  match s with
  | CREATED => "CREATED" | ASSIGNED => "ASSIGNED" | EN_ROUTE => "EN_ROUTE"
  | ON_SITE => "ON_SITE" | IN_PROGRESS => "IN_PROGRESS"
  | COMPLETED => "COMPLETED" | CANCELLED => "CANCELLED"
  | DISPUTED => "DISPUTED"
  end.

Definition eqb (a b : TaskStatus) : bool := String.eqb (value a) (value b).
End TaskStatus.

Module TaskPriority.
Definition value (p : TaskPriority) : string :=
  match p with
  | LOW => "LOW" | MEDIUM => "MEDIUM" | HIGH => "HIGH" | URGENT => "URGENT"
  end.

Definition eqb (a b : TaskPriority) : bool := String.eqb (value a) (value b).
End TaskPriority.

(** Timestamps, and JSON documents kept as their text. *)
Definition datetime := Z.
Definition json := string.

(** A row of the [tasks] table ([class Task(Base)]).  The two UUID columns
    that the endpoints compare with the caller are kept in their textual
    form, which is what [str(task.clientId)] yields. *)
Record Task := mkTask {
  id : string;
  title : string;
  description : string;
  clientId : string;
  taskerId : option string;
  categoryId : string;
  addressId : string;
  scheduledAt : datetime;
  durationEstMins : Z;
  status : TaskStatus;
  priority : TaskPriority;
  isUrgent : bool;
  priceGHS : float;
  platformFeeGHS : float;
  currency : string;
  location : option string;
  coordinates : option json;
  requirements : option json;
  images : option json;
  completionNotes : option string;
  createdAt : datetime;
  updatedAt : option datetime
}.

(** Column assignments, one per column that an UPDATE of tasks.py sets. *)
Definition set_title (v : string) (t : Task) : Task :=
  let 'mkTask i _ de cl ta ca ad sc du st pr ur pg pf cu lo co re im cn cr up := t in
  mkTask i v de cl ta ca ad sc du st pr ur pg pf cu lo co re im cn cr up.

Definition set_description (v : string) (t : Task) : Task :=
  let 'mkTask i ti _ cl ta ca ad sc du st pr ur pg pf cu lo co re im cn cr up := t in
  mkTask i ti v cl ta ca ad sc du st pr ur pg pf cu lo co re im cn cr up.

Definition set_scheduledAt (v : datetime) (t : Task) : Task :=
  let 'mkTask i ti de cl ta ca ad _ du st pr ur pg pf cu lo co re im cn cr up := t in
  mkTask i ti de cl ta ca ad v du st pr ur pg pf cu lo co re im cn cr up.

Definition set_durationEstMins (v : Z) (t : Task) : Task :=
  let 'mkTask i ti de cl ta ca ad sc _ st pr ur pg pf cu lo co re im cn cr up := t in
  mkTask i ti de cl ta ca ad sc v st pr ur pg pf cu lo co re im cn cr up.

Definition set_status (v : TaskStatus) (t : Task) : Task :=
  let 'mkTask i ti de cl ta ca ad sc du _ pr ur pg pf cu lo co re im cn cr up := t in
  mkTask i ti de cl ta ca ad sc du v pr ur pg pf cu lo co re im cn cr up.

Definition set_priority (v : TaskPriority) (t : Task) : Task :=
  let 'mkTask i ti de cl ta ca ad sc du st _ ur pg pf cu lo co re im cn cr up := t in
  mkTask i ti de cl ta ca ad sc du st v ur pg pf cu lo co re im cn cr up.

Definition set_isUrgent (v : bool) (t : Task) : Task :=
  let 'mkTask i ti de cl ta ca ad sc du st pr _ pg pf cu lo co re im cn cr up := t in
  mkTask i ti de cl ta ca ad sc du st pr v pg pf cu lo co re im cn cr up.

Definition set_priceGHS (v : float) (t : Task) : Task :=
  let 'mkTask i ti de cl ta ca ad sc du st pr ur _ pf cu lo co re im cn cr up := t in
  mkTask i ti de cl ta ca ad sc du st pr ur v pf cu lo co re im cn cr up.

Definition set_updatedAt (v : option datetime) (t : Task) : Task :=
  let 'mkTask i ti de cl ta ca ad sc du st pr ur pg pf cu lo co re im cn cr _ := t in
  mkTask i ti de cl ta ca ad sc du st pr ur pg pf cu lo co re im cn cr v.

(** ** Python values *)

Module Py.

(** Truth value of a [str], an [int] and a [float] in an [if]. *)
Definition truthy_str (s : string) : bool := negb (String.eqb s "").
Definition truthy_int (n : Z) : bool := negb (Z.eqb n 0).
Definition truthy_float (x : float) : bool := negb (PrimFloat.eqb x 0%float).

(** [if x:] for an [Optional] value: [None] is false, any other value has
    the truth value of its type. *)
Definition truthy_opt {A} (truthy : A -> bool) (o : option A) : bool :=
  match o with
  | None => false
  | Some v => truthy v
  end.

(** A [datetime] and a member of [TaskStatus] or [TaskPriority] (a [str]
    enumeration whose values are all non-empty) are always true. *)
Definition truthy_datetime (_ : datetime) : bool := true.
Definition truthy_status (s : TaskStatus) : bool := truthy_str (TaskStatus.value s).
Definition truthy_priority (p : TaskPriority) : bool :=
  truthy_str (TaskPriority.value p).

(** [str(x)] of a nullable UUID column: [str(None)] is ["None"]. *)
Definition str_opt (o : option string) : string :=
  match o with
  | None => "None"
  | Some u => u
  end.

End Py.

(** ** Exceptions, the session and the handler monad *)

Inductive exn :=
| HTTPException (status_code : Z) (detail : string)
| RequestValidationError (errors : list string)
| Exception (msg : string).

(** [str(e)], used by the handlers that wrap every exception; the bodies
    of those handlers raise [Exception] only. *)
Definition exn_str (e : exn) : string :=
  match e with
  | HTTPException _ d => d
  | RequestValidationError errs => String.concat "; " errs
  | Exception m => m
  end.

Inductive outcome (A : Type) :=
| Ok (a : A)
| Raise (e : exn).
Arguments Ok {A} a.
Arguments Raise {A} e.

Inductive statement := SELECT | INSERT | UPDATE | COMMIT.

Record Session := mkSession {
  tasks : list Task;
  log : list statement;
  clock : datetime
}.

Definition logged (st : statement) (s : Session) : Session :=
  mkSession (tasks s) (log s ++ [st]) (clock s).

Definition M (A : Type) : Type := Session -> outcome A * Session.

Definition ret {A} (a : A) : M A := fun s => (Ok a, s).
Definition raise {A} (e : exn) : M A := fun s => (Raise e, s).
Definition bind {A B} (m : M A) (k : A -> M B) : M B :=
  fun s =>
    match m s with
    | (Ok a, s') => k a s'
    | (Raise e, s') => (Raise e, s')
    end.

Declare Scope handler_scope.
Delimit Scope handler_scope with handler.
Notation "x <- m ;; k" := (bind m (fun x => k))
  (at level 100, m at next level, right associativity) : handler_scope.
Notation "m ;;; k" := (bind m (fun _ => k))
  (at level 100, right associativity) : handler_scope.
Open Scope handler_scope.

(** [try: body / except HTTPException: raise / except Exception as e:
    raise HTTPException(500, prefix + str(e))]. *)
Definition HTTP_500_INTERNAL_SERVER_ERROR : Z := 500.
Definition HTTP_400_BAD_REQUEST : Z := 400.
Definition HTTP_403_FORBIDDEN : Z := 403.
Definition HTTP_404_NOT_FOUND : Z := 404.

Definition try_reraise_http {A} (prefix : string) (body : M A) : M A :=
  fun s =>
    match body s with
    | (Raise (Exception m), s') =>
        (Raise (HTTPException HTTP_500_INTERNAL_SERVER_ERROR (prefix ++ m)), s')
    | r => r
    end.

(** [try: body / except Exception as e: raise HTTPException(500, ...)]:
    every exception raised in the body, an [HTTPException] too, is
    replaced. *)
Definition try_except_all {A} (prefix : string) (body : M A) : M A :=
  fun s =>
    match body s with
    | (Raise e, s') =>
        (Raise (HTTPException HTTP_500_INTERNAL_SERVER_ERROR (prefix ++ exn_str e)), s')
    | r => r
    end.

(** ** The statements that tasks.py sends to the database

    The engine is not part of the repository; each statement is given the
    meaning of the SQL text in the source.  Type and foreign-key checks of
    the engine are left out, but for the UUID parameters of the search:
    the statements on one task are followed for ids that are texts of
    UUIDs and for values their columns hold.  The primary key on [id] is
    kept: an INSERT of an existing [id] raises. *)

Module SQL.

(** The [task_data] dictionary bound to the INSERT of [create_task]. *)
Record task_data := mkTaskData {
  p_id : string;
  p_title : string;
  p_description : string;
  p_clientId : string;
  p_categoryId : string;
  p_addressId : string;
  p_scheduledAt : datetime;
  p_durationEstMins : Z;
  p_status : TaskStatus;
  p_priority : TaskPriority;
  p_isUrgent : bool;
  p_priceGHS : float;
  p_platformFeeGHS : float;
  p_currency : string;
  p_location : option string;
  p_requirements : option json
}.

(** The row an INSERT stores: the bound columns, NULL for the columns the
    statement does not list, and the server default [NOW()] for
    [createdAt]. *)
Definition new_row (d : task_data) (now : datetime) : Task :=
  {| id := p_id d;
     title := p_title d;
     description := p_description d;
     clientId := p_clientId d;
     taskerId := None;
     categoryId := p_categoryId d;
     addressId := p_addressId d;
     scheduledAt := p_scheduledAt d;
     durationEstMins := p_durationEstMins d;
     status := p_status d;
     priority := p_priority d;
     isUrgent := p_isUrgent d;
     priceGHS := p_priceGHS d;
     platformFeeGHS := p_platformFeeGHS d;
     currency := p_currency d;
     location := p_location d;
     coordinates := None;
     requirements := p_requirements d;
     images := None;
     completionNotes := None;
     createdAt := now;
     updatedAt := None |}.

Definition has_id (task_id : string) (t : Task) : bool :=
  String.eqb (id t) task_id.

(** [INSERT INTO tasks (...) VALUES (...)] *)
Definition insert (d : task_data) : M unit :=
  fun s =>
    if existsb (has_id (p_id d)) (tasks s)
    then (Raise (Exception "duplicate key value violates unique constraint"),
          logged INSERT s)
    else (Ok tt,
          mkSession (tasks s ++ [new_row d (clock s)]) (log s ++ [INSERT]) (clock s)).

(** [SELECT * FROM tasks WHERE id = :task_id] and [result.fetchone()]. *)
Definition select_by_id (task_id : string) : M (list Task) :=
  fun s => (Ok (filter (has_id task_id) (tasks s)), logged SELECT s).

Definition fetchone {A} (rows : list A) : option A := hd_error rows.

(** One element of the SET list of an UPDATE together with the parameter
    bound to it. *)
Inductive assignment :=
| SetTitle (v : string)
| SetDescription (v : string)
| SetScheduledAt (v : datetime)
| SetDurationEstMins (v : Z)
| SetPriceGHS (v : float)
| SetPriority (v : TaskPriority)
| SetIsUrgent (v : bool)
| SetStatus (v : TaskStatus).

Definition assign (t : Task) (a : assignment) : Task :=
  match a with
  | SetTitle v => set_title v t
  | SetDescription v => set_description v t
  | SetScheduledAt v => set_scheduledAt v t
  | SetDurationEstMins v => set_durationEstMins v t
  | SetPriceGHS v => set_priceGHS v t
  | SetPriority v => set_priority v t
  | SetIsUrgent v => set_isUrgent v t
  | SetStatus v => set_status v t
  end.

Definition updated_row (sets : list assignment) (now : datetime) (t : Task) : Task :=
  set_updatedAt (Some now) (fold_left assign sets t).

(** [UPDATE tasks SET <sets>, "updatedAt" = NOW() WHERE id = :task_id] *)
Definition update (sets : list assignment) (task_id : string) : M unit :=
  fun s =>
    (Ok tt,
     mkSession
       (map (fun t => if has_id task_id t then updated_row sets (clock s) t else t)
            (tasks s))
       (log s ++ [UPDATE]) (clock s)).

Definition commit : M unit := fun s => (Ok tt, logged COMMIT s).

(** *** Search *)

Definition lower (c : ascii) : ascii :=
  let n := nat_of_ascii c in
  if (Nat.leb 65 n && Nat.leb n 90)%bool then ascii_of_nat (n + 32) else c.

(** [s ILIKE pattern]: [%] stands for any run of characters, [_] for any
    one character, a backslash takes the next character literally, and
    letters match whatever their case. *)
Fixpoint ilike_chars (pattern s : list ascii) {struct pattern} : bool :=
  match pattern with
  | [] => match s with [] => true | _ :: _ => false end
  | c :: rest =>
      if Ascii.eqb c "%" then
        (fix any_suffix (r : list ascii) : bool :=
           ilike_chars rest r ||
           match r with
           | [] => false
           | _ :: r' => any_suffix r'
           end) s
      else if Ascii.eqb c "_" then
        match s with
        | [] => false
        | _ :: s' => ilike_chars rest s'
        end
      else if Ascii.eqb c "\" then
        match rest with
        | [] => false
        | e :: rest' =>
            match s with
            | [] => false
            | d :: s' => Ascii.eqb (lower e) (lower d) && ilike_chars rest' s'
            end
        end
      else
        match s with
        | [] => false
        | d :: s' => Ascii.eqb (lower c) (lower d) && ilike_chars rest s'
        end
  end.

Definition ilike (s pattern : string) : bool :=
  ilike_chars (list_ascii_of_string pattern) (list_ascii_of_string s).

(** A comparison with a NULL column is not true. *)
Definition on_column {A} (col : option A) (test : A -> bool) : bool :=
  match col with
  | None => false
  | Some v => test v
  end.

(** One entry of [conditions] together with the parameter bound to it. *)
Inductive condition :=
| TextIlike (pattern : string)
| CategoryIs (v : string)
| StatusIs (v : TaskStatus)
| ClientIs (v : string)
| TaskerIs (v : string)
| PriceAtLeast (v : float)
| PriceAtMost (v : float)
| LocationIlike (pattern : string)
| PriorityIs (v : TaskPriority)
| UrgentIs (v : bool).

Definition holds (t : Task) (c : condition) : bool :=
  match c with
  | TextIlike p => ilike (title t) p || ilike (description t) p
  | CategoryIs v => String.eqb (categoryId t) v
  | StatusIs v => TaskStatus.eqb (status t) v
  | ClientIs v => String.eqb (clientId t) v
  | TaskerIs v => on_column (taskerId t) (fun u => String.eqb u v)
  | PriceAtLeast v => PrimFloat.leb v (priceGHS t)
  | PriceAtMost v => PrimFloat.leb (priceGHS t) v
  | LocationIlike p => on_column (location t) (fun l => ilike l p)
  | PriorityIs v => TaskPriority.eqb (priority t) v
  | UrgentIs v => Bool.eqb (isUrgent t) v
  end.

(** [" AND ".join(conditions) if conditions else "1=1"] *)
Definition where_clause (conditions : list condition) (t : Task) : bool :=
  forallb (holds t) conditions.

(** [ORDER BY "createdAt" DESC].  Rows with the same [createdAt] are kept
    in table order, one of the orders the engine may choose. *)
Fixpoint insert_desc (x : Task) (l : list Task) : list Task :=
  match l with
  | [] => [x]
  | y :: l' =>
      if createdAt y <=? createdAt x then x :: l else y :: insert_desc x l'
  end.

Definition order_by_createdAt_desc (l : list Task) : list Task :=
  fold_right insert_desc [] l.

Definition matching (conditions : list condition) (s : Session) : list Task :=
  filter (where_clause conditions) (tasks s).

(** *** Parameters compared with a UUID column

    [clientId] and [taskerId] are UUID columns.  A parameter compared
    with one of them is read as a UUID by the engine, which refuses a
    text that is none: sixteen bytes of two hexadecimal digits each, in
    either case, with an optional hyphen after every second byte,
    optionally in braces. *)
Definition isxdigit (c : ascii) : bool :=
  let n := nat_of_ascii c in
  (Nat.leb 48 n && Nat.leb n 57) || (Nat.leb 97 n && Nat.leb n 102)
  || (Nat.leb 65 n && Nat.leb n 70).

Definition skip_hyphen (allowed : bool) (src : string) : string :=
  match src with
  | String c rest => if allowed && Ascii.eqb c "-" then rest else src
  | EmptyString => src
  end.

(** The bytes [i .. i + n - 1] of a UUID at the start of [src]; what is
    left of [src] after them. *)
Fixpoint uuid_bytes (n i : nat) (src : string) : option string :=
  match n with
  | O => Some src
  | S n' =>
      match src with
      | String a (String b rest) =>
          if isxdigit a && isxdigit b
          then uuid_bytes n' (S i)
                 (skip_hyphen (Nat.odd i && Nat.ltb i 15) rest)
          else None
      | _ => None
      end
  end.

Definition uuid_in (text : string) : bool :=
  match text with
  | String c rest =>
      if Ascii.eqb c "{"
      then match uuid_bytes 16 0 rest with
           | Some remainder => String.eqb remainder "}"
           | None => false
           end
      else match uuid_bytes 16 0 text with
           | Some remainder => String.eqb remainder ""
           | None => false
           end
  | EmptyString => false
  end.

(** The text [str()] gives for a UUID: lower-case digits in groups of 8,
    4, 4, 4 and 12 with a hyphen between them.  On such texts equality of
    UUIDs is equality of texts. *)
Definition is_lower_hex (c : ascii) : bool :=
  let n := nat_of_ascii c in
  (Nat.leb 48 n && Nat.leb n 57) || (Nat.leb 97 n && Nat.leb n 102).

Fixpoint lower_hex_run (n : nat) (src : string) : option string :=
  match n with
  | O => Some src
  | S n' =>
      match src with
      | String c rest => if is_lower_hex c then lower_hex_run n' rest else None
      | EmptyString => None
      end
  end.

Definition then_hyphen (src : option string) : option string :=
  match src with
  | Some (String c rest) => if Ascii.eqb c "-" then Some rest else None
  | _ => None
  end.

Definition canonical_shape (text : string) : bool :=
  match then_hyphen (lower_hex_run 8 text) with
  | Some r1 =>
      match then_hyphen (lower_hex_run 4 r1) with
      | Some r2 =>
          match then_hyphen (lower_hex_run 4 r2) with
          | Some r3 =>
              match then_hyphen (lower_hex_run 4 r3) with
              | Some r4 =>
                  match lower_hex_run 12 r4 with
                  | Some remainder => String.eqb remainder ""
                  | None => false
                  end
              | None => false
              end
          | None => false
          end
      | None => false
      end
  | None => false
  end.

Definition is_uuid (text : string) : bool := uuid_in text && canonical_shape text.

(** A condition whose parameter the engine refuses. *)
Definition refused (c : condition) : bool :=
  match c with
  | ClientIs v => negb (uuid_in v)
  | TaskerIs v => negb (uuid_in v)
  | _ => false
  end.

Definition invalid_uuid : exn := Exception "invalid input syntax for type uuid".

(** [SELECT * FROM tasks WHERE ... ORDER BY "createdAt" DESC
    LIMIT :limit OFFSET :offset]; a refused parameter and a negative
    LIMIT or OFFSET are errors of the engine. *)
Definition select_page (conditions : list condition) (limit offset : Z)
  : M (list Task) :=
  fun s =>
    if existsb refused conditions
    then (Raise invalid_uuid, logged SELECT s)
    else if ((limit <? 0) || (offset <? 0))%bool
    then (Raise (Exception "LIMIT and OFFSET must not be negative"), logged SELECT s)
    else (Ok (firstn (Z.to_nat limit)
                (skipn (Z.to_nat offset)
                   (order_by_createdAt_desc (matching conditions s)))),
          logged SELECT s).

(** [SELECT COUNT( * ) FROM tasks WHERE ...] and [count_result.scalar()]. *)
Definition select_count (conditions : list condition) : M Z :=
  fun s =>
    if existsb refused conditions
    then (Raise invalid_uuid, logged SELECT s)
    else (Ok (Z.of_nat (List.length (matching conditions s))), logged SELECT s).

End SQL.

(** ** app/api/v1/tasks.py: request and response models *)

Module TaskCreateRequest.

Record t := mk {
  title : string;
  description : string;
  categoryId : string;
  addressId : string;
  scheduledAt : datetime;
  durationEstMins : Z;
  priceGHS : float;
  priority : TaskPriority;
  isUrgent : bool;
  location : option string;
  requirements : option json
}.

(** A pydantic validator returns the value or raises [ValueError]. *)
Inductive validated (A : Type) :=
| Valid (v : A)
| ValueError (msg : string).
Arguments Valid {A} v.
Arguments ValueError {A} msg.

Definition validate_title (v : string) : validated string :=
  if Nat.ltb (String.length v) 5
  then ValueError "Title must be at least 5 characters"
  else Valid v.

Definition validate_description (v : string) : validated string :=
  if Nat.ltb (String.length v) 20
  then ValueError "Description must be at least 20 characters"
  else Valid v.

Definition validate_price (v : float) : validated float :=
  if PrimFloat.ltb v 10%float
  then ValueError "Minimum price is ₵10"
  else Valid v.

Definition error_of {A} (r : validated A) : list string :=
  match r with
  | Valid _ => []
  | ValueError msg => [msg]
  end.

(** Every field validator runs; the messages of those that raise are
    collected. *)
Definition errors (r : t) : list string :=
  error_of (validate_title (title r))
  ++ error_of (validate_description (description r))
  ++ error_of (validate_price (priceGHS r)).

End TaskCreateRequest.

Module TaskUpdateRequest.

Record t := mk {
  title : option string;
  description : option string;
  scheduledAt : option datetime;
  durationEstMins : option Z;
  priceGHS : option float;
  priority : option TaskPriority;
  isUrgent : option bool;
  status : option TaskStatus
}.

End TaskUpdateRequest.

(** The query parameters of [get_tasks] (the fields of
    [TaskSearchRequest]). *)
Module TaskSearchRequest.

Record t := mk {
  query : option string;
  categoryId : option string;
  status : option TaskStatus;
  clientId : option string;
  taskerId : option string;
  minPrice : option float;
  maxPrice : option float;
  location : option string;
  priority : option TaskPriority;
  isUrgent : option bool;
  page : Z;
  limit : Z
}.

End TaskSearchRequest.

(** The dictionary that [get_tasks] and [get_task] build for a row.
    [isoformat()] of a timestamp is kept as the timestamp. *)
Module TaskDict.

Record t := mk {
  id : string;
  title : string;
  description : string;
  clientId : string;
  taskerId : option string;
  categoryId : string;
  addressId : string;
  scheduledAt : datetime;
  durationEstMins : Z;
  status : TaskStatus;
  priority : TaskPriority;
  isUrgent : bool;
  priceGHS : float;
  platformFeeGHS : float;
  currency : string;
  location : option string;
  createdAt : datetime;
  updatedAt : option datetime
}.

End TaskDict.

Definition task_dict (task : Task) : TaskDict.t :=
  {| TaskDict.id := id task;
     TaskDict.title := title task;
     TaskDict.description := description task;
     TaskDict.clientId := clientId task;
     TaskDict.taskerId := taskerId task;
     TaskDict.categoryId := categoryId task;
     TaskDict.addressId := addressId task;
     TaskDict.scheduledAt := scheduledAt task;
     TaskDict.durationEstMins := durationEstMins task;
     TaskDict.status := status task;
     TaskDict.priority := priority task;
     TaskDict.isUrgent := isUrgent task;
     TaskDict.priceGHS := priceGHS task;
     TaskDict.platformFeeGHS := platformFeeGHS task;
     TaskDict.currency := currency task;
     TaskDict.location := location task;
     TaskDict.createdAt := createdAt task;
     TaskDict.updatedAt := updatedAt task |}.

(** The caller, as [get_current_user] returns it from the token. *)
Record CurrentUser := mkUser {
  user_id : string;
  role : string
}.

Record CreateResponse := mkCreateResponse {
  cr_success : bool;
  cr_message : string;
  cr_taskId : string
}.

Record ListResponse := mkListResponse {
  lr_success : bool;
  lr_data : list TaskDict.t;
  lr_total : Z;
  lr_page : Z;
  lr_limit : Z;
  lr_totalPages : Z
}.

Record MessageResponse := mkMessageResponse {
  mr_success : bool;
  mr_message : string
}.

(** [a // b] *)
Definition floordiv (a b : Z) : M Z :=
  if b =? 0 then raise (Exception "integer division or modulo by zero")
  else ret (a / b).

(** ** app/api/v1/tasks.py: the handlers *)

(** [create_task]; [new_id] is the value of [str(uuid.uuid4())]. *)
Definition create_task (request : TaskCreateRequest.t) (current_user : CurrentUser)
    (new_id : string) : M CreateResponse :=
  try_except_all "Failed to create task: "
    (let platform_fee :=
       PrimFloat.mul (TaskCreateRequest.priceGHS request) 0.05%float in
     let task_data :=
       {| SQL.p_id := new_id;
          SQL.p_title := TaskCreateRequest.title request;
          SQL.p_description := TaskCreateRequest.description request;
          SQL.p_clientId := user_id current_user;
          SQL.p_categoryId := TaskCreateRequest.categoryId request;
          SQL.p_addressId := TaskCreateRequest.addressId request;
          SQL.p_scheduledAt := TaskCreateRequest.scheduledAt request;
          SQL.p_durationEstMins := TaskCreateRequest.durationEstMins request;
          SQL.p_status := CREATED;
          SQL.p_priority := TaskCreateRequest.priority request;
          SQL.p_isUrgent := TaskCreateRequest.isUrgent request;
          SQL.p_priceGHS := TaskCreateRequest.priceGHS request;
          SQL.p_platformFeeGHS := platform_fee;
          SQL.p_currency := "GHS";
          SQL.p_location := TaskCreateRequest.location request;
          SQL.p_requirements := TaskCreateRequest.requirements request |} in
     SQL.insert task_data ;;;
     SQL.commit ;;;
     ret {| cr_success := true;
            cr_message := "Task created successfully";
            cr_taskId := SQL.p_id task_data |}).

(** The POST route: the body is validated as a [TaskCreateRequest] before
    the handler is entered. *)
Definition route_create_task (body : TaskCreateRequest.t)
    (current_user : CurrentUser) (new_id : string) : M CreateResponse :=
  match TaskCreateRequest.errors body with
  | [] => create_task body current_user new_id
  | errs => raise (RequestValidationError errs)
  end.

(** [if v: conditions.append(...)] *)
Definition append_if {A B} (truthy : A -> bool) (o : option A) (mk : A -> B)
    (l : list B) : list B :=
  match o with
  | Some v => if truthy v then l ++ [mk v] else l
  | None => l
  end.

Definition is_not_None {A} (_ : A) : bool := true.

Definition build_conditions (q : TaskSearchRequest.t) : list SQL.condition :=
  let conditions := [] in
  let conditions :=
    append_if Py.truthy_str (TaskSearchRequest.query q)
      (fun v => SQL.TextIlike ("%" ++ v ++ "%")) conditions in
  let conditions :=
    append_if Py.truthy_str (TaskSearchRequest.categoryId q) SQL.CategoryIs conditions in
  let conditions :=
    append_if Py.truthy_status (TaskSearchRequest.status q) SQL.StatusIs conditions in
  let conditions :=
    append_if Py.truthy_str (TaskSearchRequest.clientId q) SQL.ClientIs conditions in
  let conditions :=
    append_if Py.truthy_str (TaskSearchRequest.taskerId q) SQL.TaskerIs conditions in
  let conditions :=
    append_if Py.truthy_float (TaskSearchRequest.minPrice q) SQL.PriceAtLeast conditions in
  let conditions :=
    append_if Py.truthy_float (TaskSearchRequest.maxPrice q) SQL.PriceAtMost conditions in
  let conditions :=
    append_if Py.truthy_str (TaskSearchRequest.location q)
      (fun v => SQL.LocationIlike ("%" ++ v ++ "%")) conditions in
  let conditions :=
    append_if Py.truthy_priority (TaskSearchRequest.priority q) SQL.PriorityIs conditions in
  let conditions :=
    append_if is_not_None (TaskSearchRequest.isUrgent q) SQL.UrgentIs conditions in
  conditions.

(** [except Exception as e: raise HTTPException(status_code=
    status.HTTP_500_INTERNAL_SERVER_ERROR, ...)] inside [get_tasks].  There
    [status] is the query parameter of that name, [None] or a member of
    [TaskStatus], not the module of status codes: evaluating the argument
    raises [AttributeError], and that exception leaves the handler. *)
Definition attribute_error (status : option TaskStatus) : exn :=
  Exception
    match status with
    | None => "'NoneType' object has no attribute 'HTTP_500_INTERNAL_SERVER_ERROR'"
    | Some _ => "'TaskStatus' object has no attribute 'HTTP_500_INTERNAL_SERVER_ERROR'"
    end.

Definition try_except_shadowed {A} (status : option TaskStatus) (body : M A) : M A :=
  fun s =>
    match body s with
    | (Raise _, s') => (Raise (attribute_error status), s')
    | r => r
    end.

Definition get_tasks (q : TaskSearchRequest.t) : M ListResponse :=
  let page := TaskSearchRequest.page q in
  let limit := TaskSearchRequest.limit q in
  try_except_shadowed (TaskSearchRequest.status q)
    (let offset := (page - 1) * limit in
     let conditions := build_conditions q in
     tasks <- SQL.select_page conditions limit offset ;;
     total <- SQL.select_count conditions ;;
     let task_list := map task_dict tasks in
     totalPages <- floordiv (total + limit - 1) limit ;;
     ret {| lr_success := true;
            lr_data := task_list;
            lr_total := total;
            lr_page := page;
            lr_limit := limit;
            lr_totalPages := totalPages |}).

(** The GET route: [page: int = Query(1, ge=1)] and
    [limit: int = Query(20, ge=1, le=50)] are checked before the handler
    is entered. *)
Definition query_errors (q : TaskSearchRequest.t) : list string :=
  (if TaskSearchRequest.page q <? 1
   then ["page: ensure this value is greater than or equal to 1"] else [])
  ++ (if TaskSearchRequest.limit q <? 1
      then ["limit: ensure this value is greater than or equal to 1"] else [])
  ++ (if 50 <? TaskSearchRequest.limit q
      then ["limit: ensure this value is less than or equal to 50"] else []).

Definition route_get_tasks (q : TaskSearchRequest.t) : M ListResponse :=
  match query_errors q with
  | [] => get_tasks q
  | errs => raise (RequestValidationError errs)
  end.

Definition get_task (task_id : string) : M TaskDict.t :=
  try_reraise_http "Failed to fetch task: "
    (result <- SQL.select_by_id task_id ;;
     match SQL.fetchone result with
     | None => raise (HTTPException HTTP_404_NOT_FOUND "Task not found")
     | Some task => ret (task_dict task)
     end).

Definition build_update_fields (request : TaskUpdateRequest.t)
  : list SQL.assignment :=
  let update_fields := [] in
  let update_fields :=
    append_if Py.truthy_str (TaskUpdateRequest.title request)
      SQL.SetTitle update_fields in
  let update_fields :=
    append_if Py.truthy_str (TaskUpdateRequest.description request)
      SQL.SetDescription update_fields in
  let update_fields :=
    append_if Py.truthy_datetime (TaskUpdateRequest.scheduledAt request)
      SQL.SetScheduledAt update_fields in
  let update_fields :=
    append_if Py.truthy_int (TaskUpdateRequest.durationEstMins request)
      SQL.SetDurationEstMins update_fields in
  let update_fields :=
    append_if Py.truthy_float (TaskUpdateRequest.priceGHS request)
      SQL.SetPriceGHS update_fields in
  let update_fields :=
    append_if Py.truthy_priority (TaskUpdateRequest.priority request)
      SQL.SetPriority update_fields in
  let update_fields :=
    append_if is_not_None (TaskUpdateRequest.isUrgent request)
      SQL.SetIsUrgent update_fields in
  let update_fields :=
    append_if Py.truthy_status (TaskUpdateRequest.status request)
      SQL.SetStatus update_fields in
  update_fields.

(** The permission test of [update_task], as written: the 403 is raised
    when both parenthesised conjunctions hold. *)
Definition update_forbidden (current_user : CurrentUser) (task : Task) : bool :=
  (String.eqb (role current_user) "CLIENT"
   && negb (String.eqb (clientId task) (user_id current_user)))
  && (String.eqb (role current_user) "TASKER"
      && negb (String.eqb (Py.str_opt (taskerId task)) (user_id current_user))).

Definition update_task (task_id : string) (request : TaskUpdateRequest.t)
    (current_user : CurrentUser) : M MessageResponse :=
  try_reraise_http "Failed to update task: "
    (result <- SQL.select_by_id task_id ;;
     match SQL.fetchone result with
     | None => raise (HTTPException HTTP_404_NOT_FOUND "Task not found")
     | Some task =>
         if update_forbidden current_user task
         then raise (HTTPException HTTP_403_FORBIDDEN "Insufficient permissions")
         else
           let update_fields := build_update_fields request in
           match update_fields with
           | [] => raise (HTTPException HTTP_400_BAD_REQUEST "No fields to update")
           | _ :: _ =>
               SQL.update update_fields task_id ;;;
               SQL.commit ;;;
               ret {| mr_success := true;
                      mr_message := "Task updated successfully" |}
           end
     end).

Definition delete_task (task_id : string) (current_user : CurrentUser)
  : M MessageResponse :=
  try_reraise_http "Failed to delete task: "
    (result <- SQL.select_by_id task_id ;;
     match SQL.fetchone result with
     | None => raise (HTTPException HTTP_404_NOT_FOUND "Task not found")
     | Some task =>
         if negb (String.eqb (clientId task) (user_id current_user))
         then raise (HTTPException HTTP_403_FORBIDDEN "Insufficient permissions")
         else
           SQL.update [SQL.SetStatus CANCELLED] task_id ;;;
           SQL.commit ;;;
           ret {| mr_success := true;
                  mr_message := "Task cancelled successfully" |}
     end).

(** ** Vocabulary of the statements *)

(** The row that [SELECT ... WHERE id = :task_id] and [fetchone()] yield. *)
Definition find_task (task_id : string) (s : Session) : option Task :=
  SQL.fetchone (filter (SQL.has_id task_id) (tasks s)).

(** The session after the SELECT, a committed UPDATE of [sets] on
    [task_id], and nothing else. *)
Definition after_update (sets : list SQL.assignment) (task_id : string)
    (s : Session) : Session :=
  mkSession
    (map (fun t => if SQL.has_id task_id t
                   then SQL.updated_row sets (clock s) t else t)
         (tasks s))
    (log s ++ [SELECT; UPDATE; COMMIT]) (clock s).

(** The session after a committed INSERT of [row], and nothing else. *)
Definition after_insert (row : Task) (s : Session) : Session :=
  mkSession (tasks s ++ [row]) (log s ++ [INSERT; COMMIT]) (clock s).

(** The row [create_task] stores for a request. *)
Definition created_row (request : TaskCreateRequest.t) (current_user : CurrentUser)
    (new_id : string) (now : datetime) : Task :=
  {| id := new_id;
     title := TaskCreateRequest.title request;
     description := TaskCreateRequest.description request;
     clientId := user_id current_user;
     taskerId := None;
     categoryId := TaskCreateRequest.categoryId request;
     addressId := TaskCreateRequest.addressId request;
     scheduledAt := TaskCreateRequest.scheduledAt request;
     durationEstMins := TaskCreateRequest.durationEstMins request;
     status := CREATED;
     priority := TaskCreateRequest.priority request;
     isUrgent := TaskCreateRequest.isUrgent request;
     priceGHS := TaskCreateRequest.priceGHS request;
     platformFeeGHS := PrimFloat.mul (TaskCreateRequest.priceGHS request) 0.05%float;
     currency := "GHS";
     location := TaskCreateRequest.location request;
     coordinates := None;
     requirements := TaskCreateRequest.requirements request;
     images := None;
     completionNotes := None;
     createdAt := now;
     updatedAt := None |}.

Definition updated_response : MessageResponse :=
  {| mr_success := true; mr_message := "Task updated successfully" |}.

Definition cancelled_response : MessageResponse :=
  {| mr_success := true; mr_message := "Task cancelled successfully" |}.

Definition forbidden : exn :=
  HTTPException HTTP_403_FORBIDDEN "Insufficient permissions".

Definition no_fields : exn :=
  HTTPException HTTP_400_BAD_REQUEST "No fields to update".

Definition not_found : exn :=
  HTTPException HTTP_404_NOT_FOUND "Task not found".

(** [if v: row.column = v], the effect on one column of one optional
    field of a patch. *)
Definition apply_if {A} (truthy : A -> bool) (o : option A)
    (setter : A -> Task -> Task) (t : Task) : Task :=
  match o with
  | Some v => if truthy v then setter v t else t
  | None => t
  end.

(** The value of a column after an update: the patch value when it was
    supplied and is true, the stored value otherwise. *)
Definition patched {A} (truthy : A -> bool) (o : option A) (old : A) : A :=
  match o with
  | Some v => if truthy v then v else old
  | None => old
  end.

(** The callers that the permission test of [update_task] is written to
    let through: the owning client, the assigned tasker, and a caller
    whose role is neither of the two roles the test names. *)
Definition update_permitted (current_user : CurrentUser) (task : Task) : Prop :=
  (role current_user = "CLIENT" /\ user_id current_user = clientId task)
  \/ (role current_user = "TASKER" /\ taskerId task = Some (user_id current_user))
  \/ (role current_user <> "CLIENT" /\ role current_user <> "TASKER").

(** What an update of [task_id] with the patch [request] may do to a row
    [t], giving [t']: the columns outside the patch model are kept, a
    column whose patch field is absent is kept, and a row with another
    [id] is kept whole. *)
Record update_frame (request : TaskUpdateRequest.t) (task_id : string)
    (t t' : Task) : Prop := {
  frame_id : id t' = id t;
  frame_clientId : clientId t' = clientId t;
  frame_taskerId : taskerId t' = taskerId t;
  frame_platformFeeGHS : platformFeeGHS t' = platformFeeGHS t;
  frame_currency : currency t' = currency t;
  frame_categoryId : categoryId t' = categoryId t;
  frame_addressId : addressId t' = addressId t;
  frame_createdAt : createdAt t' = createdAt t;
  frame_location : location t' = location t;
  frame_coordinates : coordinates t' = coordinates t;
  frame_requirements : requirements t' = requirements t;
  frame_images : images t' = images t;
  frame_completionNotes : completionNotes t' = completionNotes t;
  frame_title : TaskUpdateRequest.title request = None -> title t' = title t;
  frame_description :
    TaskUpdateRequest.description request = None -> description t' = description t;
  frame_scheduledAt :
    TaskUpdateRequest.scheduledAt request = None -> scheduledAt t' = scheduledAt t;
  frame_durationEstMins :
    TaskUpdateRequest.durationEstMins request = None ->
    durationEstMins t' = durationEstMins t;
  frame_priceGHS :
    TaskUpdateRequest.priceGHS request = None -> priceGHS t' = priceGHS t;
  frame_priority :
    TaskUpdateRequest.priority request = None -> priority t' = priority t;
  frame_isUrgent :
    TaskUpdateRequest.isUrgent request = None -> isUrgent t' = isUrgent t;
  frame_status :
    TaskUpdateRequest.status request = None -> status t' = status t;
  frame_other_rows : id t <> task_id -> t' = t
}.

(** A patch none of whose supplied fields is true: the text, number and
    price fields are absent or false ([""], [0], [0.0]); the fields whose
    values are always true, and [isUrgent], are absent. *)
Record all_falsy (request : TaskUpdateRequest.t) : Prop := {
  falsy_title : Py.truthy_opt Py.truthy_str (TaskUpdateRequest.title request) = false;
  falsy_description :
    Py.truthy_opt Py.truthy_str (TaskUpdateRequest.description request) = false;
  falsy_scheduledAt : TaskUpdateRequest.scheduledAt request = None;
  falsy_durationEstMins :
    Py.truthy_opt Py.truthy_int (TaskUpdateRequest.durationEstMins request) = false;
  falsy_priceGHS :
    Py.truthy_opt Py.truthy_float (TaskUpdateRequest.priceGHS request) = false;
  falsy_priority : TaskUpdateRequest.priority request = None;
  falsy_isUrgent : TaskUpdateRequest.isUrgent request = None;
  falsy_status : TaskUpdateRequest.status request = None
}.

(** The columns of the updated row, column by column. *)
Record update_applied (request : TaskUpdateRequest.t) (t t' : Task) : Prop := {
  applied_title :
    title t' = patched Py.truthy_str (TaskUpdateRequest.title request) (title t);
  applied_description :
    description t' =
    patched Py.truthy_str (TaskUpdateRequest.description request) (description t);
  applied_scheduledAt :
    scheduledAt t' =
    patched Py.truthy_datetime (TaskUpdateRequest.scheduledAt request) (scheduledAt t);
  applied_durationEstMins :
    durationEstMins t' =
    patched Py.truthy_int (TaskUpdateRequest.durationEstMins request)
      (durationEstMins t);
  applied_priceGHS :
    priceGHS t' =
    patched Py.truthy_float (TaskUpdateRequest.priceGHS request) (priceGHS t);
  applied_priority :
    priority t' =
    patched Py.truthy_priority (TaskUpdateRequest.priority request) (priority t);
  applied_isUrgent :
    isUrgent t' = patched is_not_None (TaskUpdateRequest.isUrgent request) (isUrgent t);
  applied_status :
    status t' = patched Py.truthy_status (TaskUpdateRequest.status request) (status t)
}.

(** The order of a page: creation time, newest first. *)
Definition newer_or_same (a b : Task) : Prop := createdAt b <= createdAt a.

(** *** Sample data *)

Module Sample.

Definition sink : Task :=
  {| id := "t1";
     title := "Fix my sink";
     description := "The kitchen sink leaks badly";
     clientId := "user-1";
     taskerId := None;
     categoryId := "plumbing";
     addressId := "addr-1";
     scheduledAt := 5000;
     durationEstMins := 60;
     status := CREATED;
     priority := MEDIUM;
     isUrgent := false;
     priceGHS := 100%float;
     platformFeeGHS := 5%float;
     currency := "GHS";
     location := Some "Accra";
     coordinates := None;
     requirements := None;
     images := None;
     completionNotes := None;
     createdAt := 1000;
     updatedAt := None |}.

Definition session : Session := mkSession [sink] [] 2000.

Definition owner : CurrentUser := mkUser "user-1" "CLIENT".
Definition other_client : CurrentUser := mkUser "user-2" "CLIENT".
Definition admin : CurrentUser := mkUser "admin-1" "ADMIN".
Definition tasker : CurrentUser := mkUser "user-7" "TASKER".
Definition tasker_with_client_id : CurrentUser := mkUser "user-1" "TASKER".

Definition empty_patch : TaskUpdateRequest.t :=
  TaskUpdateRequest.mk None None None None None None None None.

Definition title_patch : TaskUpdateRequest.t :=
  TaskUpdateRequest.mk (Some "Fix my kitchen sink") None None None None None None None.

Definition price_patch (p : float) : TaskUpdateRequest.t :=
  TaskUpdateRequest.mk None None None None (Some p) None None None.

Definition falsy_patch : TaskUpdateRequest.t :=
  TaskUpdateRequest.mk (Some "") None None (Some 0) (Some 0%float) None None None.

Definition draft (ti de : string) (p : float) : TaskCreateRequest.t :=
  TaskCreateRequest.mk ti de "plumbing" "addr-1" 5000 60 p MEDIUM false None None.

Definition good_description : string := "The kitchen sink leaks badly".

Definition all_tasks (page limit : Z) : TaskSearchRequest.t :=
  TaskSearchRequest.mk None None None None None None None None None None page limit.

(** The [n]-th of a series of tasks, created at time [n]. *)
Definition numbered (n : nat) : Task :=
  {| id := "task-" ++ NilEmpty.string_of_uint (Nat.to_uint n);
     title := "Fix my sink";
     description := good_description;
     clientId := "user-1";
     taskerId := None;
     categoryId := "plumbing";
     addressId := "addr-1";
     scheduledAt := 5000;
     durationEstMins := 60;
     status := CREATED;
     priority := MEDIUM;
     isUrgent := false;
     priceGHS := 100%float;
     platformFeeGHS := 5%float;
     currency := "GHS";
     location := Some "Accra";
     coordinates := None;
     requirements := None;
     images := None;
     completionNotes := None;
     createdAt := Z.of_nat n;
     updatedAt := None |}.

(** Forty-five tasks, numbered 1 to 45, oldest first. *)
Definition backlog : Session := mkSession (map numbered (seq 1 45)) [] 2000.

End Sample.

(** ** app/core/security.py: phone numbers and one-time codes

    A character of a [string] is a code point below 256. *)

Module Security.

(** [str.isdigit] on such a character: the ten digits, and the
    superscripts two, three and one (code points 178, 179 and 185). *)
Definition isdigit (c : ascii) : bool :=
  let n := nat_of_ascii c in
  (Nat.leb 48 n && Nat.leb n 57) || Nat.eqb n 178 || Nat.eqb n 179 || Nat.eqb n 185.

(** [''.join(filter(f, s))] *)
Fixpoint filter_chars (f : ascii -> bool) (s : string) : string :=
  match s with
  | EmptyString => EmptyString
  | String c rest =>
      if f c then String c (filter_chars f rest) else filter_chars f rest
  end.

(** [s.startswith(prefix)] and [s[1:]]. *)
Definition startswith (s prefix : string) : bool := String.prefix prefix s.

Definition from_second (s : string) : string :=
  match s with
  | EmptyString => EmptyString
  | String _ rest => rest
  end.

Definition format_phone_number (phone : string) : string :=
  let digits := filter_chars isdigit phone in
  if startswith digits "233" then "+" ++ digits
  else if startswith digits "0" then "+233" ++ from_second digits
  else if Nat.eqb (String.length digits) 9 then "+233" ++ digits
  else phone.

(** [string.digits] and [secrets.choice]: the [i]-th draw of the random
    source is [draw i], reduced to an index of the sequence. *)
Definition string_digits : list ascii :=
  ["0"; "1"; "2"; "3"; "4"; "5"; "6"; "7"; "8"; "9"]%char.

Definition choice (seq : list ascii) (draw : nat) : ascii :=
  nth (draw mod List.length seq) seq "0"%char.

(** [generate_otp(length)], with [length = 6] by default. *)
Definition generate_otp (draw : nat -> nat) (length : nat) : string :=
  string_of_list_ascii (map (fun i => choice string_digits (draw i)) (seq 0 length)).

End Security.

(** ** app/api/v1/auth.py: requesting and verifying a one-time code *)

Module Auth.

(** [\d] in a pattern for [str]: among the characters below 256, the ten
    digits. *)
Definition re_digit (c : ascii) : bool :=
  let n := nat_of_ascii c in Nat.leb 48 n && Nat.leb n 57.

(** [\d{n}$] at the start of [s]: [n] digits, then the end of the string
    or one final newline. *)
Fixpoint digits_then_end (n : nat) (s : string) : bool :=
  match n with
  | O => String.eqb s "" || String.eqb s (String "010"%char "")
  | S n' =>
      match s with
      | EmptyString => false
      | String c rest => re_digit c && digits_then_end n' rest
      end
  end.

(** [re.match(r'^\+233\d{9}$', phone)] *)
Definition re_match_ghana (phone : string) : bool :=
  match phone with
  | String "+" (String "2" (String "3" (String "3" rest))) =>
      digits_then_end 9 rest
  | _ => false
  end.

(** [PhoneAuthRequest.validate_phone] *)
Definition validate_phone (v : string) : TaskCreateRequest.validated string :=
  let phone := Security.format_phone_number v in
  if negb (re_match_ghana phone)
  then TaskCreateRequest.ValueError "Invalid Ghana phone number format"
  else TaskCreateRequest.Valid phone.

(** A [Dict[str, str]]: the entries, at most one per key. *)
Definition dict := list (string * string).

Definition dict_get (d : dict) (k : string) : option string :=
  option_map snd (find (fun e => String.eqb (fst e) k) d).

Definition dict_del (d : dict) (k : string) : dict :=
  filter (fun e => negb (String.eqb (fst e) k)) d.

Definition dict_set (d : dict) (k v : string) : dict :=
  (dict_del d k ++ [(k, v)])%list.

(** A row of the [users] table, with the columns the endpoints read. *)
Record User := mkUserRow {
  u_id : string;
  u_phone : string;
  u_firstName : string;
  u_lastName : string;
  u_email : option string;
  u_role : string;
  u_status : string
}.

(** The state the two endpoints work on: the module-level [otp_storage],
    the [users] table, the statements sent, and what was printed. *)
Record State := mkState {
  otp_storage : dict;
  users : list User;
  statements : list statement;
  stdout : list string
}.

Record OtpSent := mkOtpSent {
  os_success : bool;
  os_message : string;
  os_phone : string;
  os_userExists : bool;
  os_expiresIn : Z
}.

Record OtpVerified := mkOtpVerified {
  ov_success : bool;
  ov_message : string;
  ov_phone : string
}.

Definition OTP_EXPIRE_MINUTES : Z := 5.

(** [request_otp]; [request_phone] is the validated [request.phone] and
    [draw] the random source of [generate_otp()]. *)
Definition request_otp (request_phone : string) (draw : nat -> nat) (st : State)
  : outcome OtpSent * State :=
  let otp := Security.generate_otp draw 6 in
  let storage := dict_set (otp_storage st) request_phone otp in
  let line := "OTP for " ++ request_phone ++ ": " ++ otp in
  let out := (stdout st ++ [line])%list in
  let result := filter (fun u => String.eqb (u_phone u) request_phone) (users st) in
  let user_exists :=
    match SQL.fetchone result with
    | Some _ => true
    | None => false
    end in
  (Ok {| os_success := true;
         os_message := "OTP sent successfully";
         os_phone := request_phone;
         os_userExists := user_exists;
         os_expiresIn := OTP_EXPIRE_MINUTES * 60 |},
   mkState storage (users st) (statements st ++ [SELECT]) out).

(** The POST route of [request_otp]: the body is validated as a
    [PhoneAuthRequest], whose validator replaces the phone by its
    formatted value. *)
Definition route_request_otp (phone : string) (draw : nat -> nat) (st : State)
  : outcome OtpSent * State :=
  match validate_phone phone with
  | TaskCreateRequest.Valid formatted => request_otp formatted draw st
  | TaskCreateRequest.ValueError msg => (Raise (RequestValidationError [msg]), st)
  end.

Definition invalid_otp : exn :=
  HTTPException HTTP_400_BAD_REQUEST "Invalid or expired OTP".

(** [verify_otp]; an [OTPVerificationRequest] has no validator. *)
Definition verify_otp (request_phone request_otp : string) (st : State)
  : outcome OtpVerified * State :=
  let stored_otp := dict_get (otp_storage st) request_phone in
  if negb (Py.truthy_opt Py.truthy_str stored_otp)
     || negb (match stored_otp with
              | Some v => String.eqb v request_otp
              | None => false
              end)
  then (Raise invalid_otp, st)
  else
    (Ok {| ov_success := true;
           ov_message := "OTP verified successfully";
           ov_phone := request_phone |},
     mkState (dict_del (otp_storage st) request_phone) (users st)
       (statements st) (stdout st)).

(** Every code in the storage is filed under a phone number in the form
    the validator produces: one the validator accepts and returns as it
    is. *)
Definition formatted_keys (st : State) : Prop :=
  forall k v, In (k, v) (otp_storage st) ->
              validate_phone k = TaskCreateRequest.Valid k.

(** The state after one call of [verify_otp] for each of [guesses]. *)
Definition verify_each (request_phone : string) (guesses : list string)
    (st : State) : State :=
  fold_left (fun acc guess => snd (verify_otp request_phone guess acc)) guesses st.

Definition otp_verified (request_phone : string) : OtpVerified :=
  {| ov_success := true;
     ov_message := "OTP verified successfully";
     ov_phone := request_phone |}.

End Auth.

(** ** Responses, well-formed ids and supplied fields *)

(** The status of the response when an exception leaves a route.  main.py
    registers no exception handler, so the framework answers with the
    status of an [HTTPException], with 422 for a body or query that fails
    validation, and with 500 for any other exception. *)
Definition HTTP_422_UNPROCESSABLE_ENTITY : Z := 422.

Definition response_status (e : exn) : Z :=
  match e with
  | HTTPException status_code _ => status_code
  | RequestValidationError _ => HTTP_422_UNPROCESSABLE_ENTITY
  | Exception _ => HTTP_500_INTERNAL_SERVER_ERROR
  end.

(** What the validators of [TaskCreateRequest] refuse. *)
Definition violates_validation (body : TaskCreateRequest.t) : Prop :=
  (String.length (TaskCreateRequest.title body) < 5)%nat
  \/ (String.length (TaskCreateRequest.description body) < 20)%nat
  \/ PrimFloat.ltb (TaskCreateRequest.priceGHS body) 10 = true.

(** The [clientId] and [taskerId] of a query, when they are supplied and
    not empty, are texts of UUIDs as [str()] writes them. *)
Definition uuid_filters (q : TaskSearchRequest.t) : Prop :=
  (forall v, TaskSearchRequest.clientId q = Some v -> v <> "" ->
             SQL.is_uuid v = true)
  /\ (forall v, TaskSearchRequest.taskerId q = Some v -> v <> "" ->
                SQL.is_uuid v = true).


(** A patch with at least one field that [update_task] writes: a text,
    number or price that is supplied and true, or any supplied time,
    priority, urgency flag or status. *)
Definition some_truthy (request : TaskUpdateRequest.t) : Prop :=
  Py.truthy_opt Py.truthy_str (TaskUpdateRequest.title request) = true
  \/ Py.truthy_opt Py.truthy_str (TaskUpdateRequest.description request) = true
  \/ TaskUpdateRequest.scheduledAt request <> None
  \/ Py.truthy_opt Py.truthy_int (TaskUpdateRequest.durationEstMins request) = true
  \/ Py.truthy_opt Py.truthy_float (TaskUpdateRequest.priceGHS request) = true
  \/ TaskUpdateRequest.priority request <> None
  \/ TaskUpdateRequest.isUrgent request <> None
  \/ TaskUpdateRequest.status request <> None.

(** A patch that supplies the urgency flag and nothing else. *)
Definition urgent_patch (b : bool) : TaskUpdateRequest.t :=
  TaskUpdateRequest.mk None None None None None None (Some b) None.


(** ** Vocabulary for sequences of calls and for search *)

(** The primary key of the [tasks] table: no two rows share an [id]. *)
Definition unique_ids (s : Session) : Prop := NoDup (map id (tasks s)).

(** The same session when the server clock reads [now]. *)
Definition at_time (now : datetime) (s : Session) : Session :=
  mkSession (tasks s) (log s) now.

(** The same query for another page. *)
Definition with_page (q : TaskSearchRequest.t) (p : Z) : TaskSearchRequest.t :=
  {| TaskSearchRequest.query := TaskSearchRequest.query q;
     TaskSearchRequest.categoryId := TaskSearchRequest.categoryId q;
     TaskSearchRequest.status := TaskSearchRequest.status q;
     TaskSearchRequest.clientId := TaskSearchRequest.clientId q;
     TaskSearchRequest.taskerId := TaskSearchRequest.taskerId q;
     TaskSearchRequest.minPrice := TaskSearchRequest.minPrice q;
     TaskSearchRequest.maxPrice := TaskSearchRequest.maxPrice q;
     TaskSearchRequest.location := TaskSearchRequest.location q;
     TaskSearchRequest.priority := TaskSearchRequest.priority q;
     TaskSearchRequest.isUrgent := TaskSearchRequest.isUrgent q;
     TaskSearchRequest.page := p;
     TaskSearchRequest.limit := TaskSearchRequest.limit q |}.

(** The items the GET route answers for page [p] of a query (none when
    the call raises). *)
Definition page_items (q : TaskSearchRequest.t) (s : Session) (p : Z)
  : list TaskDict.t :=
  match route_get_tasks (with_page q p) s with
  | (Ok r, _) => lr_data r
  | (Raise _, _) => []
  end.

(** The page numbers [1 .. n]. *)
Definition pages_upto (n : nat) : list Z := map Z.of_nat (seq 1 n).



(** A patch that supplies a status and nothing else, and the sample
    session after its task was cancelled. *)
Definition status_patch (v : TaskStatus) : TaskUpdateRequest.t :=
  TaskUpdateRequest.mk None None None None None None None (Some v).

Definition cancelled_session : Session :=
  after_update [SQL.SetStatus CANCELLED] "t1" Sample.session.

(** * Properties *)

(** ** What each handler does to a session *)

Lemma logged_twice (a b : statement) (s : Session) :
  logged b (logged a s) = mkSession (tasks s) (log s ++ [a; b]) (clock s).
Proof.
  unfold logged; simpl. now rewrite <- app_assoc.
Qed.

(** No caller has a role equal to both ["CLIENT"] and ["TASKER"], so the
    permission test of [update_task] never fires. *)
Lemma update_forbidden_never (u : CurrentUser) (task : Task) :
  update_forbidden u task = false.
Proof.
  unfold update_forbidden.
  destruct (String.eqb_spec (role u) "CLIENT") as [E | E].
  - rewrite E. simpl. now rewrite andb_false_r.
  - reflexivity.
Qed.

Lemma update_task_run (task_id : string) (request : TaskUpdateRequest.t)
    (u : CurrentUser) (s : Session) :
  update_task task_id request u s =
  match find_task task_id s with
  | None => (Raise not_found, logged SELECT s)
  | Some task =>
      if update_forbidden u task then (Raise forbidden, logged SELECT s)
      else
        match build_update_fields request with
        | [] => (Raise no_fields, logged SELECT s)
        | sets => (Ok updated_response, after_update sets task_id s)
        end
  end.
Proof.
  unfold update_task, try_reraise_http, bind, SQL.select_by_id, find_task.
  destruct (SQL.fetchone (filter (SQL.has_id task_id) (tasks s))) as [task |];
    [| reflexivity].
  destruct (update_forbidden u task); [reflexivity |].
  destruct (build_update_fields request) as [| a sets]; [reflexivity |].
  unfold SQL.update, SQL.commit, ret, after_update, logged; simpl.
  now rewrite <- !app_assoc.
Qed.

Lemma delete_task_run (task_id : string) (u : CurrentUser) (s : Session) :
  delete_task task_id u s =
  match find_task task_id s with
  | None => (Raise not_found, logged SELECT s)
  | Some task =>
      if String.eqb (clientId task) (user_id u)
      then (Ok cancelled_response,
            after_update [SQL.SetStatus CANCELLED] task_id s)
      else (Raise forbidden, logged SELECT s)
  end.
Proof.
  unfold delete_task, try_reraise_http, bind, SQL.select_by_id, find_task.
  destruct (SQL.fetchone (filter (SQL.has_id task_id) (tasks s))) as [task |];
    [| reflexivity].
  destruct (String.eqb (clientId task) (user_id u)); [| reflexivity].
  unfold SQL.update, SQL.commit, ret, after_update, logged; simpl.
  now rewrite <- !app_assoc.
Qed.

Lemma create_task_run (request : TaskCreateRequest.t) (u : CurrentUser)
    (new_id : string) (s : Session) :
  create_task request u new_id s =
  if existsb (SQL.has_id new_id) (tasks s)
  then (Raise (HTTPException HTTP_500_INTERNAL_SERVER_ERROR
                 "Failed to create task: duplicate key value violates unique constraint"),
        logged INSERT s)
  else (Ok {| cr_success := true;
              cr_message := "Task created successfully";
              cr_taskId := new_id |},
        after_insert (created_row request u new_id (clock s)) s).
Proof.
  unfold create_task, try_except_all, bind, SQL.insert; simpl.
  destruct (existsb (SQL.has_id new_id) (tasks s)); [reflexivity |].
  unfold SQL.commit, ret, after_insert, logged, created_row, SQL.new_row; simpl.
  now rewrite <- !app_assoc.
Qed.

(** ** Who may update a task *)

Lemma update_permitted_not_forbidden (u : CurrentUser) (task : Task) :
  update_permitted u task -> update_forbidden u task = false.
Proof.
  unfold update_forbidden.
  intros [[_ Hown] | [[_ Hassigned] | [Hrole _]]].
  - rewrite Hown, String.eqb_refl. simpl. now rewrite andb_false_r.
  - rewrite Hassigned. simpl. rewrite String.eqb_refl. simpl.
    now rewrite !andb_false_r.
  - apply String.eqb_neq in Hrole. now rewrite Hrole.
Qed.

(** C1, as the source has it.  On an existing task, the owning CLIENT, the
    assigned TASKER and every caller whose role is neither CLIENT nor
    TASKER (an ADMIN, say) pass the permission test of [update_task]: with
    a patch that yields at least one column to set, the call succeeds and
    the session is the one after the committed UPDATE. *)
Theorem update_task_permitted (task_id : string) (request : TaskUpdateRequest.t)
    (u : CurrentUser) (s : Session) (task : Task) :
  find_task task_id s = Some task ->
  update_permitted u task ->
  build_update_fields request <> [] ->
  update_task task_id request u s =
  (Ok updated_response, after_update (build_update_fields request) task_id s).
Proof.
  intros Hfind Hperm Hfields.
  rewrite update_task_run, Hfind, (update_permitted_not_forbidden _ _ Hperm).
  destruct (build_update_fields request); [contradiction | reflexivity].
Qed.

Lemma update_task_permitted_witness :
  update_task "t1" Sample.title_patch Sample.owner Sample.session =
  (Ok updated_response,
   after_update (build_update_fields Sample.title_patch) "t1" Sample.session).
Proof.
  apply (update_task_permitted "t1" Sample.title_patch Sample.owner
           Sample.session Sample.sink).
  - reflexivity.
  - left. split; reflexivity.
  - discriminate.
Defined.

(** C1 as stated fails: an ADMIN, who is neither the owning CLIENT nor the
    assigned TASKER, is not answered 403; the update goes through. *)
Lemma update_task_admin_not_forbidden :
  ~ (forall task_id request u s task,
        find_task task_id s = Some task ->
        ~ ((role u = "CLIENT" /\ user_id u = clientId task)
           \/ (role u = "TASKER" /\ taskerId task = Some (user_id u))) ->
        exists s',
          update_task task_id request u s = (Raise forbidden, s')
          /\ tasks s' = tasks s).
Proof.
  intros H.
  destruct (H "t1" Sample.title_patch Sample.admin Sample.session Sample.sink)
    as [s' [Hrun _]].
  - reflexivity.
  - intros [[Hrole _] | [Hrole _]]; discriminate Hrole.
  - vm_compute in Hrun. discriminate Hrun.
Qed.

(** ** Who may create a task *)

Lemma route_create_task_valid (body : TaskCreateRequest.t) (u : CurrentUser)
    (new_id : string) (s : Session) :
  TaskCreateRequest.errors body = [] ->
  existsb (SQL.has_id new_id) (tasks s) = false ->
  route_create_task body u new_id s =
  (Ok {| cr_success := true;
         cr_message := "Task created successfully";
         cr_taskId := new_id |},
   after_insert (created_row body u new_id (clock s)) s).
Proof.
  intros Hvalid Hfresh. unfold route_create_task.
  now rewrite Hvalid, create_task_run, Hfresh.
Qed.

(** C2, as the source has it.  [create_task] does not look at the role of
    the caller.  For every caller, a body that passes validation and an
    unused generated id give a stored task whose [clientId] is the caller
    and whose [status] is CREATED; and the outcome for a caller is the
    outcome for any caller with the same id and another role. *)
Theorem create_task_any_role (body : TaskCreateRequest.t) (u : CurrentUser)
    (new_id : string) (s : Session) :
  TaskCreateRequest.errors body = [] ->
  existsb (SQL.has_id new_id) (tasks s) = false ->
  let row := created_row body u new_id (clock s) in
  route_create_task body u new_id s =
  (Ok {| cr_success := true;
         cr_message := "Task created successfully";
         cr_taskId := new_id |},
   after_insert row s)
  /\ clientId row = user_id u
  /\ status row = CREATED
  /\ forall other_role,
       route_create_task body (mkUser (user_id u) other_role) new_id s =
       route_create_task body u new_id s.
Proof.
  intros Hvalid Hfresh row.
  split; [now apply route_create_task_valid |].
  split; [reflexivity |].
  split; [reflexivity |].
  intros other_role.
  now rewrite !route_create_task_valid.
Qed.

Lemma create_task_any_role_witness :
  route_create_task (Sample.draft "Fix my sink" Sample.good_description 100)
    Sample.tasker "t2" Sample.session =
  (Ok {| cr_success := true;
         cr_message := "Task created successfully";
         cr_taskId := "t2" |},
   after_insert
     (created_row (Sample.draft "Fix my sink" Sample.good_description 100)
        Sample.tasker "t2" 2000)
     Sample.session).
Proof.
  apply (create_task_any_role
           (Sample.draft "Fix my sink" Sample.good_description 100)
           Sample.tasker "t2" Sample.session); reflexivity.
Defined.

(** C2 as stated fails: a TASKER with a valid draft is not rejected; the
    task is created. *)
Lemma create_task_by_tasker_succeeds :
  ~ (forall body u new_id s r s',
        route_create_task body u new_id s = (Ok r, s') -> role u = "CLIENT").
Proof.
  intros H.
  assert (Hrole : role Sample.tasker = "CLIENT").
  { eapply (H (Sample.draft "Fix my sink" Sample.good_description 100)
              Sample.tasker "t2" Sample.session).
    apply route_create_task_valid; reflexivity. }
  discriminate Hrole.
Qed.

(** ** Who may cancel a task *)

(** C3, as the source has it.  On an existing task, [delete_task] succeeds
    exactly for a caller whose id is the [clientId] of the task, whatever
    the caller's role and whatever the task's status: the task is then
    CANCELLED.  Every other caller is answered 403 and no row changes. *)
Theorem delete_task_owner_only (task_id : string) (u : CurrentUser)
    (s : Session) (task : Task) :
  find_task task_id s = Some task ->
  (user_id u = clientId task ->
   delete_task task_id u s =
   (Ok cancelled_response, after_update [SQL.SetStatus CANCELLED] task_id s))
  /\ (user_id u <> clientId task ->
      delete_task task_id u s = (Raise forbidden, logged SELECT s)
      /\ tasks (logged SELECT s) = tasks s).
Proof.
  intros Hfind. rewrite delete_task_run, Hfind. split.
  - intros Hown. now rewrite Hown, String.eqb_refl.
  - intros Hother. split; [| reflexivity].
    destruct (String.eqb_spec (clientId task) (user_id u)) as [E | _];
      [now symmetry in E | reflexivity].
Qed.

Lemma delete_task_owner_only_witness :
  delete_task "t1" Sample.owner Sample.session =
  (Ok cancelled_response,
   after_update [SQL.SetStatus CANCELLED] "t1" Sample.session)
  /\ delete_task "t1" Sample.other_client Sample.session =
     (Raise forbidden, logged SELECT Sample.session).
Proof.
  split.
  - apply (proj1 (delete_task_owner_only "t1" Sample.owner Sample.session
                    Sample.sink eq_refl)).
    reflexivity.
  - apply (proj2 (delete_task_owner_only "t1" Sample.other_client Sample.session
                    Sample.sink eq_refl)).
    discriminate.
Defined.

(** C3 as stated fails: a TASKER whose id is the [clientId] of the task is
    not answered 403; the task is cancelled. *)
Lemma delete_task_by_non_client_role_succeeds :
  ~ (forall task_id u s task,
        find_task task_id s = Some task ->
        ~ (role u = "CLIENT" /\ user_id u = clientId task) ->
        exists s', delete_task task_id u s = (Raise forbidden, s')).
Proof.
  intros H.
  destruct (H "t1" Sample.tasker_with_client_id Sample.session Sample.sink)
    as [s' Hrun].
  - reflexivity.
  - intros [Hrole _]. discriminate Hrole.
  - vm_compute in Hrun. discriminate Hrun.
Qed.

(** ** Columns that no UPDATE of tasks.py touches *)

Section UntouchedColumn.

Context {B : Type} (column : Task -> B).
Hypothesis untouched : forall t a, column (SQL.assign t a) = column t.
Hypothesis unstamped : forall t v, column (set_updatedAt v t) = column t.

Lemma fold_assign_untouched (sets : list SQL.assignment) (t : Task) :
  column (fold_left SQL.assign sets t) = column t.
Proof.
  revert t. induction sets as [| a sets IH]; intros t; simpl.
  - reflexivity.
  - now rewrite IH, untouched.
Qed.

Lemma updated_row_untouched (sets : list SQL.assignment) (now : datetime) (t : Task) :
  column (SQL.updated_row sets now t) = column t.
Proof.
  unfold SQL.updated_row. now rewrite unstamped, fold_assign_untouched.
Qed.

Lemma after_update_untouched (sets : list SQL.assignment) (task_id : string)
    (s : Session) :
  map column (tasks (after_update sets task_id s)) = map column (tasks s).
Proof.
  unfold after_update; simpl. rewrite map_map. apply map_ext.
  intros t. destruct (SQL.has_id task_id t); [| reflexivity].
  apply updated_row_untouched.
Qed.

End UntouchedColumn.

Ltac untouched_column :=
  first [ apply updated_row_untouched | apply after_update_untouched ];
  [ intros [] []; reflexivity | intros [] ?; reflexivity ].

(** The session a call of [update_task] leaves: the SELECT alone, or the
    SELECT and the committed UPDATE. *)
Lemma update_task_session (task_id : string) (request : TaskUpdateRequest.t)
    (u : CurrentUser) (s : Session) :
  snd (update_task task_id request u s) = logged SELECT s
  \/ (exists r, update_task task_id request u s =
                (Ok r, after_update (build_update_fields request) task_id s)).
Proof.
  rewrite update_task_run.
  destruct (find_task task_id s) as [task |]; [| now left].
  destruct (update_forbidden u task); [now left |].
  destruct (build_update_fields request) as [| a sets]; [now left |].
  right. now exists updated_response.
Qed.

Lemma delete_task_session (task_id : string) (u : CurrentUser) (s : Session) :
  snd (delete_task task_id u s) = logged SELECT s
  \/ snd (delete_task task_id u s) =
     after_update [SQL.SetStatus CANCELLED] task_id s.
Proof.
  rewrite delete_task_run.
  destruct (find_task task_id s) as [task |]; [| now left].
  destruct (String.eqb (clientId task) (user_id u)); [now right | now left].
Qed.

(** ** The minimum price *)

(** C4 fails on [update_task].  The stored task costs 100; the price 5 is
    one [validate_price] refuses on creation; the owner's update with
    [priceGHS = 5.0] succeeds and the stored price is 5, below 10. *)
Theorem update_task_price_below_minimum :
  PrimFloat.ltb (priceGHS Sample.sink) 10 = false
  /\ TaskCreateRequest.validate_price 5 =
     TaskCreateRequest.ValueError "Minimum price is ₵10"
  /\ update_task "t1" (Sample.price_patch 5) Sample.owner Sample.session =
     (Ok updated_response,
      after_update [SQL.SetPriceGHS 5] "t1" Sample.session)
  /\ map priceGHS (tasks (after_update [SQL.SetPriceGHS 5] "t1" Sample.session)) =
     [5%float]
  /\ PrimFloat.ltb 5 10 = true.
Proof.
  repeat split; reflexivity.
Qed.

(** ** The platform fee *)

(** C5.  For every draft that passes validation (so its price is not
    below 10) and an unused id, [create_task] stores a row whose fee is
    the product of the draft's price and 0.05: 5.00 for 100.00 and 0.50
    for 10.00.  The fee depends on nothing else the caller sends, and no
    call of [update_task] or [delete_task] changes a stored fee. *)
Theorem create_task_platform_fee (body : TaskCreateRequest.t) (u : CurrentUser)
    (new_id : string) (s : Session) :
  TaskCreateRequest.errors body = [] ->
  existsb (SQL.has_id new_id) (tasks s) = false ->
  exists r row,
    route_create_task body u new_id s = (Ok r, after_insert row s)
    /\ priceGHS row = TaskCreateRequest.priceGHS body
    /\ platformFeeGHS row = PrimFloat.mul (TaskCreateRequest.priceGHS body) 0.05
    /\ (TaskCreateRequest.priceGHS body = 100%float -> platformFeeGHS row = 5%float)
    /\ (TaskCreateRequest.priceGHS body = 10%float -> platformFeeGHS row = 0.5%float)
    /\ (forall body' u' new_id' now',
          TaskCreateRequest.priceGHS body' = TaskCreateRequest.priceGHS body ->
          platformFeeGHS (created_row body' u' new_id' now') = platformFeeGHS row)
    /\ (forall task_id request u' s1,
          map platformFeeGHS (tasks (snd (update_task task_id request u' s1))) =
          map platformFeeGHS (tasks s1))
    /\ (forall task_id u' s1,
          map platformFeeGHS (tasks (snd (delete_task task_id u' s1))) =
          map platformFeeGHS (tasks s1)).
Proof.
  intros Hvalid Hfresh.
  eexists. exists (created_row body u new_id (clock s)).
  split; [now apply route_create_task_valid |].
  split; [reflexivity |].
  split; [reflexivity |].
  split; [simpl; intros ->; reflexivity |].
  split; [simpl; intros ->; reflexivity |].
  split; [simpl; intros ? ? ? ? ->; reflexivity |].
  split.
  - intros task_id request u' s1.
    destruct (update_task_session task_id request u' s1) as [E | [r E]];
      rewrite E; [reflexivity | simpl snd; untouched_column].
  - intros task_id u' s1.
    destruct (delete_task_session task_id u' s1) as [E | E];
      rewrite E; [reflexivity | untouched_column].
Qed.

Lemma create_task_platform_fee_witness :
  exists r row,
    route_create_task (Sample.draft "Fix my sink" Sample.good_description 100)
      Sample.owner "t2" Sample.session = (Ok r, after_insert row Sample.session)
    /\ platformFeeGHS row = 5%float.
Proof.
  destruct (create_task_platform_fee
              (Sample.draft "Fix my sink" Sample.good_description 100)
              Sample.owner "t2" Sample.session eq_refl eq_refl)
    as [r [row [Hrun [_ [_ [Hfee _]]]]]].
  exists r, row. split; [exact Hrun | exact (Hfee eq_refl)].
Defined.

(** ** The empty patch *)

(** C6.  On an existing task, for a caller the permission test lets
    through, [update_task] with a patch that supplies no field raises the
    400 "No fields to update"; the only statement sent is the SELECT, and
    every stored row, its [updatedAt] included, is as before. *)
Theorem update_task_empty_patch (task_id : string) (u : CurrentUser)
    (s : Session) (task : Task) :
  find_task task_id s = Some task ->
  update_permitted u task ->
  exists s',
    update_task task_id Sample.empty_patch u s = (Raise no_fields, s')
    /\ tasks s' = tasks s
    /\ log s' = (log s ++ [SELECT])%list.
Proof.
  intros Hfind Hperm. exists (logged SELECT s).
  rewrite update_task_run, Hfind, (update_permitted_not_forbidden _ _ Hperm).
  repeat split.
Qed.

Lemma update_task_empty_patch_witness :
  exists s',
    update_task "t1" Sample.empty_patch Sample.owner Sample.session =
    (Raise no_fields, s')
    /\ tasks s' = tasks Sample.session
    /\ log s' = (log Sample.session ++ [SELECT])%list.
Proof.
  apply (update_task_empty_patch "t1" Sample.owner Sample.session Sample.sink).
  - reflexivity.
  - left. split; reflexivity.
Defined.

(** ** Validation of a new task *)

Lemma create_request_errors_nil (body : TaskCreateRequest.t) :
  TaskCreateRequest.errors body = [] <->
  (5 <= String.length (TaskCreateRequest.title body))%nat
  /\ (20 <= String.length (TaskCreateRequest.description body))%nat
  /\ PrimFloat.ltb (TaskCreateRequest.priceGHS body) 10 = false.
Proof.
  unfold TaskCreateRequest.errors, TaskCreateRequest.validate_title,
    TaskCreateRequest.validate_description, TaskCreateRequest.validate_price.
  destruct (Nat.ltb_spec (String.length (TaskCreateRequest.title body)) 5);
    destruct (Nat.ltb_spec (String.length (TaskCreateRequest.description body)) 20);
    destruct (PrimFloat.ltb (TaskCreateRequest.priceGHS body) 10);
    simpl; split; intros Hyp;
    solve [ discriminate Hyp
          | reflexivity
          | repeat split; (assumption || lia)
          | destruct Hyp as [? [? ?]]; (lia || congruence) ].
Qed.

Lemma create_task_never_validation_error (body : TaskCreateRequest.t)
    (u : CurrentUser) (new_id : string) (s : Session) errs s' :
  create_task body u new_id s <> (Raise (RequestValidationError errs), s').
Proof.
  rewrite create_task_run.
  destruct (existsb (SQL.has_id new_id) (tasks s)); discriminate.
Qed.

(** C7, as the source has it.  The POST route rejects a body with a
    request-validation error, which the framework answers with 422 and
    never with the 400 of BadRequest, exactly when the title has fewer
    than 5 characters, or the description fewer than 20, or the price is
    below 10; the rejection happens before any statement is sent, and
    leaves the session as it was.  A title of 4 characters fails and one
    of 5 succeeds; a description of 19 characters fails; the price 9.99
    fails and the price 10.00 succeeds. *)
Theorem create_task_validation (body : TaskCreateRequest.t) (u : CurrentUser)
    (new_id : string) (s : Session) :
  ((exists errs s',
       route_create_task body u new_id s = (Raise (RequestValidationError errs), s'))
   <-> ((String.length (TaskCreateRequest.title body) < 5)%nat
        \/ (String.length (TaskCreateRequest.description body) < 20)%nat
        \/ PrimFloat.ltb (TaskCreateRequest.priceGHS body) 10 = true))
  /\ (forall errs s',
        route_create_task body u new_id s = (Raise (RequestValidationError errs), s') ->
        s' = s)
  /\ (forall e s',
        route_create_task body u new_id s = (Raise e, s') ->
        response_status e <> HTTP_400_BAD_REQUEST
        /\ (response_status e = HTTP_422_UNPROCESSABLE_ENTITY <->
            violates_validation body))
  /\ (exists errs,
        route_create_task (Sample.draft "Sink" Sample.good_description 10)
          Sample.owner "t2" Sample.session
        = (Raise (RequestValidationError errs), Sample.session))
  /\ (exists r s',
        route_create_task (Sample.draft "Sinks" Sample.good_description 10)
          Sample.owner "t2" Sample.session = (Ok r, s'))
  /\ (exists errs,
        route_create_task (Sample.draft "Fix my sink" "Sink leaks a lot..." 10)
          Sample.owner "t2" Sample.session
        = (Raise (RequestValidationError errs), Sample.session))
  /\ (exists errs,
        route_create_task (Sample.draft "Fix my sink" Sample.good_description 9.99)
          Sample.owner "t2" Sample.session
        = (Raise (RequestValidationError errs), Sample.session))
  /\ (exists r s',
        route_create_task (Sample.draft "Fix my sink" Sample.good_description 10)
          Sample.owner "t2" Sample.session = (Ok r, s')).
Proof.
  assert (Hiff :
            (exists errs s',
                route_create_task body u new_id s =
                (Raise (RequestValidationError errs), s'))
            <-> violates_validation body).
  { unfold route_create_task, violates_validation.
    pose proof (create_request_errors_nil body) as Hnil.
    destruct (TaskCreateRequest.errors body) as [| e errs0]; split.
    + intros [errs [s' Hrun]].
      now apply create_task_never_validation_error in Hrun.
    + destruct Hnil as [Hnil _]. destruct (Hnil eq_refl) as [Ht [Hd Hp]].
      intros [Hbad | [Hbad | Hbad]]; try lia. congruence.
    + intros _.
      destruct (Nat.ltb_spec (String.length (TaskCreateRequest.title body)) 5);
        [now left |].
      destruct (Nat.ltb_spec (String.length (TaskCreateRequest.description body)) 20);
        [now right; left |].
      destruct (PrimFloat.ltb (TaskCreateRequest.priceGHS body) 10) eqn:Hp;
        [now right; right |].
      destruct Hnil as [_ Hnil]. now discriminate Hnil.
    + intros _. now exists (e :: errs0), s. }
  split; [exact Hiff |]. split; [| split].
  - intros errs s'. unfold route_create_task.
    destruct (TaskCreateRequest.errors body) as [| e errs0].
    + intros Hrun. now apply create_task_never_validation_error in Hrun.
    + unfold raise. congruence.
  - intros e s' Hrun.
    assert (Hkind : (exists errs, e = RequestValidationError errs)
                    \/ (exists detail,
                           e = HTTPException HTTP_500_INTERNAL_SERVER_ERROR detail
                           /\ TaskCreateRequest.errors body = [])).
    { unfold route_create_task in Hrun.
      destruct (TaskCreateRequest.errors body) as [| msg errs0].
      - right. rewrite create_task_run in Hrun.
        destruct (existsb (SQL.has_id new_id) (tasks s));
          [| discriminate Hrun].
        injection Hrun as <- _. eexists. now split.
      - left. unfold raise in Hrun. injection Hrun as <- _. now eexists. }
    destruct Hkind as [[errs ->] | [detail [-> Hvalid]]].
    + split; [discriminate |]. split; [intros _ | reflexivity].
      apply Hiff. now exists errs, s'.
    + split; [discriminate |]. split; [discriminate |].
      intros Hbad. apply Hiff in Hbad. destruct Hbad as [errs [s0 Hbad]].
      rewrite Hrun in Hbad. discriminate Hbad.
  - repeat split; eexists; try eexists; reflexivity.
Qed.

(** C7 as stated fails: a draft with a title of 4 characters violates
    validation, and the answer is not BadRequest; the exception that
    leaves the route has the status 422. *)
Lemma create_task_validation_not_bad_request :
  ~ (forall body u new_id s,
        violates_validation body ->
        exists e s',
          route_create_task body u new_id s = (Raise e, s')
          /\ response_status e = HTTP_400_BAD_REQUEST).
Proof.
  intros H.
  destruct (H (Sample.draft "Sink" Sample.good_description 10) Sample.owner "t2"
              Sample.session) as [e [s' [Hrun Hstatus]]].
  - left. simpl. lia.
  - vm_compute in Hrun. injection Hrun as <- _. discriminate Hstatus.
Qed.

(** ** What an update writes *)

Lemma fold_append_if {A} (truthy : A -> bool) (o : option A)
    (mk : A -> SQL.assignment) (l : list SQL.assignment) (t : Task) :
  fold_left SQL.assign (append_if truthy o mk l) t =
  apply_if truthy o (fun v r => SQL.assign r (mk v)) (fold_left SQL.assign l t).
Proof.
  unfold append_if, apply_if.
  destruct o as [v |]; [| reflexivity].
  destruct (truthy v); [| reflexivity].
  now rewrite fold_left_app.
Qed.

(** The row after the SET list of [update_task]: each field of the patch
    acts on its own column, in the order of the source. *)
Lemma fold_build_update_fields (request : TaskUpdateRequest.t) (t : Task) :
  fold_left SQL.assign (build_update_fields request) t =
  apply_if Py.truthy_status (TaskUpdateRequest.status request) set_status
    (apply_if is_not_None (TaskUpdateRequest.isUrgent request) set_isUrgent
       (apply_if Py.truthy_priority (TaskUpdateRequest.priority request) set_priority
          (apply_if Py.truthy_float (TaskUpdateRequest.priceGHS request) set_priceGHS
             (apply_if Py.truthy_int (TaskUpdateRequest.durationEstMins request)
                set_durationEstMins
                (apply_if Py.truthy_datetime (TaskUpdateRequest.scheduledAt request)
                   set_scheduledAt
                   (apply_if Py.truthy_str (TaskUpdateRequest.description request)
                      set_description
                      (apply_if Py.truthy_str (TaskUpdateRequest.title request)
                         set_title t))))))).
Proof.
  unfold build_update_fields. now rewrite !fold_append_if.
Qed.

Section Column.

Context {A B : Type} (column : Task -> B).
Variables (truthy : A -> bool) (o : option A) (t : Task).

Lemma column_apply_if (setter : A -> Task -> Task) :
  (forall v r, column (setter v r) = column r) ->
  column (apply_if truthy o setter t) = column t.
Proof.
  intros Hkeep. unfold apply_if.
  destruct o as [v |]; [| reflexivity].
  destruct (truthy v); [apply Hkeep | reflexivity].
Qed.

End Column.

Lemma column_apply_if_set {A} (column : Task -> A) (truthy : A -> bool)
    (o : option A) (t : Task) (setter : A -> Task -> Task) :
  (forall v r, column (setter v r) = v) ->
  column (apply_if truthy o setter t) = patched truthy o (column t).
Proof.
  intros Hset. unfold apply_if, patched.
  destruct o as [v |]; [| reflexivity].
  destruct (truthy v); [apply Hset | reflexivity].
Qed.

Ltac by_setter := intros ? []; reflexivity.

Ltac column_after_update col :=
  match goal with
  | |- col (set_updatedAt ?v ?x) = _ =>
      transitivity (col x); [destruct x; reflexivity |]
  end;
  repeat (rewrite (column_apply_if col) by by_setter);
  rewrite (column_apply_if_set col) by by_setter;
  repeat (rewrite (column_apply_if col) by by_setter);
  reflexivity.

Lemma updated_row_applied (request : TaskUpdateRequest.t) (now : datetime)
    (t : Task) :
  update_applied request t (SQL.updated_row (build_update_fields request) now t).
Proof.
  unfold SQL.updated_row. rewrite fold_build_update_fields.
  constructor.
  - column_after_update title.
  - column_after_update description.
  - column_after_update scheduledAt.
  - column_after_update durationEstMins.
  - column_after_update priceGHS.
  - column_after_update priority.
  - column_after_update isUrgent.
  - column_after_update status.
Qed.

Lemma append_if_falsy {A B} (truthy : A -> bool) (o : option A) (mk : A -> B)
    (l : list B) :
  Py.truthy_opt truthy o = false -> append_if truthy o mk l = l.
Proof.
  unfold append_if. destruct o as [v |]; simpl; [| reflexivity].
  now intros ->.
Qed.

Lemma all_falsy_no_fields (request : TaskUpdateRequest.t) :
  all_falsy request -> build_update_fields request = [].
Proof.
  intros [Ht Hd Hs Hm Hp Hpr Hu Hst]. unfold build_update_fields.
  rewrite Hs, Hpr, Hu, Hst.
  now rewrite !append_if_falsy.
Qed.

Lemma Forall2_map_right {A} (R : A -> A -> Prop) (f : A -> A) (l : list A) :
  (forall x, R x (f x)) -> Forall2 R l (map f l).
Proof.
  intros HR. induction l as [| x l IH]; simpl; constructor; auto.
Qed.

Lemma updated_row_frame (request : TaskUpdateRequest.t) (task_id : string)
    (now : datetime) (t : Task) :
  update_frame request task_id t
    (if SQL.has_id task_id t
     then SQL.updated_row (build_update_fields request) now t else t).
Proof.
  destruct (SQL.has_id task_id t) eqn:Hid.
  - pose proof (updated_row_applied request now t) as [Ht Hd Hs Hm Hp Hpr Hu Hst].
    constructor; try untouched_column.
    + intros E. now rewrite Ht, E.
    + intros E. now rewrite Hd, E.
    + intros E. now rewrite Hs, E.
    + intros E. now rewrite Hm, E.
    + intros E. now rewrite Hp, E.
    + intros E. now rewrite Hpr, E.
    + intros E. now rewrite Hu, E.
    + intros E. now rewrite Hst, E.
    + intros Hother. apply String.eqb_eq in Hid. contradiction.
  - constructor; reflexivity.
Qed.

(** C9.  After a successful [update_task] every stored row keeps its
    [id], [clientId], [taskerId], [platformFeeGHS], [currency],
    [categoryId], [addressId], [createdAt] and the other columns outside
    the patch model; a column whose field is absent from the patch keeps
    its value; rows with another [id] are untouched.  Only the columns of
    the fields supplied, and [updatedAt], can differ. *)
Theorem update_task_frame (task_id : string) (request : TaskUpdateRequest.t)
    (u : CurrentUser) (s : Session) (r : MessageResponse) (s' : Session) :
  update_task task_id request u s = (Ok r, s') ->
  Forall2 (update_frame request task_id) (tasks s) (tasks s').
Proof.
  intros Hrun.
  destruct (update_task_session task_id request u s) as [E | [r' E]].
  - rewrite Hrun in E. simpl in E. subst s'. simpl.
    replace (tasks s) with (map (fun t : Task => t) (tasks s)) at 2
      by apply map_id.
    apply Forall2_map_right. intros t. constructor; reflexivity.
  - rewrite Hrun in E. injection E as _ ->. unfold after_update; simpl.
    apply Forall2_map_right. intros t. apply updated_row_frame.
Qed.

Lemma update_task_frame_witness :
  Forall2 (update_frame Sample.title_patch "t1")
    (tasks Sample.session)
    (tasks (after_update (build_update_fields Sample.title_patch) "t1"
              Sample.session)).
Proof.
  apply (update_task_frame "t1" Sample.title_patch Sample.owner Sample.session
           updated_response).
  reflexivity.
Defined.

(** ** Listing tasks *)

Lemma insert_desc_permutation (x : Task) (l : list Task) :
  Permutation (SQL.insert_desc x l) (x :: l).
Proof.
  induction l as [| y l IH]; simpl.
  - apply Permutation_refl.
  - destruct (createdAt y <=? createdAt x).
    + apply Permutation_refl.
    + apply perm_trans with (y :: x :: l).
      * now apply perm_skip.
      * apply perm_swap.
Qed.

Lemma order_by_permutation (l : list Task) :
  Permutation (SQL.order_by_createdAt_desc l) l.
Proof.
  induction l as [| x l IH]; simpl.
  - apply perm_nil.
  - apply perm_trans with (x :: SQL.order_by_createdAt_desc l).
    + apply insert_desc_permutation.
    + now apply perm_skip.
Qed.

Lemma insert_desc_head (x y : Task) (l : list Task) :
  newer_or_same y x -> HdRel newer_or_same y l ->
  HdRel newer_or_same y (SQL.insert_desc x l).
Proof.
  intros Hyx Hhd. destruct l as [| z l]; simpl.
  - now constructor.
  - destruct (createdAt z <=? createdAt x); constructor; trivial.
    now inversion Hhd.
Qed.

Lemma insert_desc_sorted (x : Task) (l : list Task) :
  Sorted newer_or_same l -> Sorted newer_or_same (SQL.insert_desc x l).
Proof.
  induction 1 as [| y l Hsorted IH Hhd]; simpl.
  - repeat constructor.
  - destruct (Z.leb_spec (createdAt y) (createdAt x)) as [Hle | Hgt].
    + constructor; [now constructor | now constructor].
    + constructor; [exact IH |].
      apply insert_desc_head; [unfold newer_or_same; lia | exact Hhd].
Qed.

Lemma order_by_sorted (l : list Task) :
  StronglySorted newer_or_same (SQL.order_by_createdAt_desc l).
Proof.
  apply Sorted_StronglySorted.
  - intros a b c. unfold newer_or_same. lia.
  - induction l as [| x l IH]; simpl.
    + constructor.
    + now apply insert_desc_sorted.
Qed.

(** [(total + limit - 1) // limit] is the number of pages of [limit]
    items that [total] items need. *)
Lemma pages_ceiling (total limit : Z) :
  0 <= total -> 1 <= limit ->
  ((total + limit - 1) / limit - 1) * limit < total
  <= (total + limit - 1) / limit * limit.
Proof.
  intros Htotal Hlimit.
  pose proof (Z.div_mod (total + limit - 1) limit ltac:(lia)) as Hdm.
  pose proof (Z.mod_pos_bound (total + limit - 1) limit ltac:(lia)) as Hmod.
  nia.
Qed.

Lemma existsb_append_if {A B} (f : B -> bool) (truthy : A -> bool) (o : option A)
    (mk : A -> B) (l : list B) :
  existsb f (append_if truthy o mk l) =
  existsb f l || match o with
                 | Some v => truthy v && f (mk v)
                 | None => false
                 end.
Proof.
  unfold append_if. destruct o as [v |]; [| now rewrite orb_false_r].
  destruct (truthy v); [| now rewrite orb_false_r].
  rewrite existsb_app. simpl. now rewrite orb_false_r.
Qed.

Lemma refused_conditions (q : TaskSearchRequest.t) :
  existsb SQL.refused (build_conditions q) =
  match TaskSearchRequest.clientId q with
  | Some v => Py.truthy_str v && negb (SQL.uuid_in v)
  | None => false
  end
  || match TaskSearchRequest.taskerId q with
     | Some v => Py.truthy_str v && negb (SQL.uuid_in v)
     | None => false
     end.
Proof.
  unfold build_conditions. rewrite !existsb_append_if. simpl.
  destruct (TaskSearchRequest.query q), (TaskSearchRequest.categoryId q),
    (TaskSearchRequest.status q), (TaskSearchRequest.minPrice q),
    (TaskSearchRequest.maxPrice q), (TaskSearchRequest.location q),
    (TaskSearchRequest.priority q), (TaskSearchRequest.isUrgent q);
    simpl; rewrite ?andb_false_r, ?orb_false_r; reflexivity.
Qed.

(** The engine reads the parameters of a query with well-formed ids. *)
Lemma uuid_filters_accepted (q : TaskSearchRequest.t) :
  uuid_filters q -> existsb SQL.refused (build_conditions q) = false.
Proof.
  intros [Hclient Htasker]. rewrite refused_conditions.
  apply orb_false_iff. split.
  - destruct (TaskSearchRequest.clientId q) as [v |]; [| reflexivity].
    destruct (String.eqb_spec v "") as [-> | Hv]; [reflexivity |].
    specialize (Hclient v eq_refl Hv). unfold SQL.is_uuid in Hclient.
    apply andb_true_iff in Hclient. destruct Hclient as [-> _].
    apply andb_false_r.
  - destruct (TaskSearchRequest.taskerId q) as [v |]; [| reflexivity].
    destruct (String.eqb_spec v "") as [-> | Hv]; [reflexivity |].
    specialize (Htasker v eq_refl Hv). unfold SQL.is_uuid in Htasker.
    apply andb_true_iff in Htasker. destruct Htasker as [-> _].
    apply andb_false_r.
Qed.

Lemma get_tasks_run (q : TaskSearchRequest.t) (s : Session) :
  1 <= TaskSearchRequest.page q ->
  1 <= TaskSearchRequest.limit q ->
  existsb SQL.refused (build_conditions q) = false ->
  let page := TaskSearchRequest.page q in
  let limit := TaskSearchRequest.limit q in
  let found := SQL.matching (build_conditions q) s in
  get_tasks q s =
  (Ok {| lr_success := true;
         lr_data :=
           map task_dict
             (firstn (Z.to_nat limit)
                (skipn (Z.to_nat ((page - 1) * limit))
                   (SQL.order_by_createdAt_desc found)));
         lr_total := Z.of_nat (List.length found);
         lr_page := page;
         lr_limit := limit;
         lr_totalPages := (Z.of_nat (List.length found) + limit - 1) / limit |},
   mkSession (tasks s) (log s ++ [SELECT; SELECT]) (clock s)).
Proof.
  intros Hpage Hlimit Haccepted page limit found.
  unfold get_tasks, try_except_shadowed, bind, SQL.select_page, SQL.select_count,
    floordiv.
  fold page limit. rewrite !Haccepted.
  replace (limit <? 0) with false by (symmetry; apply Z.ltb_ge; lia).
  replace ((page - 1) * limit <? 0) with false
    by (symmetry; apply Z.ltb_ge; nia).
  simpl orb. cbv iota.
  replace (limit =? 0) with false by (symmetry; apply Z.eqb_neq; lia).
  unfold ret. rewrite logged_twice. reflexivity.
Qed.

(** When the engine refuses a parameter, the first SELECT fails and the
    exception that leaves [get_tasks] is the [AttributeError] of its
    [except] branch. *)
Lemma get_tasks_refused (q : TaskSearchRequest.t) (s : Session) :
  existsb SQL.refused (build_conditions q) = true ->
  get_tasks q s =
  (Raise (attribute_error (TaskSearchRequest.status q)), logged SELECT s).
Proof.
  intros Hrefused.
  unfold get_tasks, try_except_shadowed, bind, SQL.select_page.
  now rewrite Hrefused.
Qed.

Lemma sorted_head_newest (x : Task) (l : list Task) :
  StronglySorted newer_or_same (x :: l) ->
  forall y, In y l -> createdAt y <= createdAt x.
Proof.
  intros Hsorted y Hin. apply StronglySorted_inv in Hsorted.
  destruct Hsorted as [_ Hall]. rewrite Forall_forall in Hall.
  now apply Hall.
Qed.

(** With distinct creation times there is one listing: every ordering of
    the same tasks by creation time, newest first, is the same list. *)
Lemma sorted_listing_unique (l1 l2 : list Task) :
  NoDup (map createdAt l1) ->
  Permutation l1 l2 ->
  StronglySorted newer_or_same l1 ->
  StronglySorted newer_or_same l2 ->
  l1 = l2.
Proof.
  revert l2. induction l1 as [| x l1 IH]; intros l2 Hdistinct Hperm Hs1 Hs2.
  - apply Permutation_nil in Hperm. now subst.
  - destruct l2 as [| y l2];
      [apply Permutation_sym, Permutation_nil in Hperm; discriminate |].
    assert (Hxy : x = y).
    { assert (Hx : In x (y :: l2))
        by (eapply Permutation_in; [exact Hperm | now left]).
      assert (Hy : In y (x :: l1))
        by (eapply Permutation_in;
            [apply Permutation_sym; exact Hperm | now left]).
      destruct Hx as [-> | Hx]; [reflexivity |].
      destruct Hy as [-> | Hy]; [reflexivity |].
      exfalso.
      pose proof (sorted_head_newest _ _ Hs2 x Hx) as Hle1.
      pose proof (sorted_head_newest _ _ Hs1 y Hy) as Hle2.
      inversion Hdistinct as [| ? ? Hnotin _]; subst.
      apply Hnotin. replace (createdAt x) with (createdAt y) by lia.
      now apply in_map. }
    subst y. f_equal. apply IH.
    + now inversion Hdistinct.
    + now apply Permutation_cons_inv in Hperm.
    + now apply StronglySorted_inv in Hs1.
    + now apply StronglySorted_inv in Hs2.
Qed.

(** * Further properties of the task endpoints *)

(** ** Looking a task up *)

Lemma get_task_run (task_id : string) (s : Session) :
  get_task task_id s =
  match find_task task_id s with
  | None => (Raise not_found, logged SELECT s)
  | Some task => (Ok (task_dict task), logged SELECT s)
  end.
Proof.
  unfold get_task, try_reraise_http, bind, SQL.select_by_id, find_task.
  now destruct (SQL.fetchone (filter (SQL.has_id task_id) (tasks s))).
Qed.

Lemma filter_has_id_absent (task_id : string) (l : list Task) :
  ~ In task_id (map id l) -> filter (SQL.has_id task_id) l = [].
Proof.
  induction l as [| t l IH]; simpl; [reflexivity |].
  intros Habsent. unfold SQL.has_id at 1.
  destruct (String.eqb_spec (id t) task_id) as [E | _].
  - exfalso. apply Habsent. now left.
  - apply IH. intros Hin. apply Habsent. now right.
Qed.

Lemma find_task_absent (task_id : string) (s : Session) :
  ~ In task_id (map id (tasks s)) -> find_task task_id s = None.
Proof.
  intros Habsent. unfold find_task. now rewrite filter_has_id_absent.
Qed.

Lemma find_task_some (task_id : string) (s : Session) (task : Task) :
  find_task task_id s = Some task -> In task (tasks s) /\ id task = task_id.
Proof.
  unfold find_task, SQL.fetchone. intros Hfind.
  destruct (filter (SQL.has_id task_id) (tasks s)) as [| t l] eqn:Hf;
    [discriminate |].
  injection Hfind as ->.
  assert (Hin : In task (filter (SQL.has_id task_id) (tasks s)))
    by (rewrite Hf; now left).
  apply filter_In in Hin. destruct Hin as [Hin Hid].
  split; [exact Hin | now apply String.eqb_eq].
Qed.

Lemma existsb_has_id_false (task_id : string) (l : list Task) :
  existsb (SQL.has_id task_id) l = false -> ~ In task_id (map id l).
Proof.
  induction l as [| t l IH]; simpl; [tauto |].
  intros Hnone. apply orb_false_iff in Hnone. destruct Hnone as [Ht Hl].
  intros [E | Hin]; [| now apply IH].
  unfold SQL.has_id in Ht. apply String.eqb_neq in Ht. contradiction.
Qed.

Lemma existsb_has_id_true (task_id : string) (l : list Task) :
  existsb (SQL.has_id task_id) l = true -> In task_id (map id l).
Proof.
  intros Hsome. apply existsb_exists in Hsome. destruct Hsome as [t [Hin Hid]].
  apply String.eqb_eq in Hid. subst task_id. now apply in_map.
Qed.

Lemma find_task_after_insert (row : Task) (s : Session) :
  ~ In (id row) (map id (tasks s)) ->
  find_task (id row) (after_insert row s) = Some row.
Proof.
  intros Hfresh. unfold find_task, after_insert; simpl.
  rewrite filter_app, (filter_has_id_absent _ _ Hfresh). simpl.
  unfold SQL.has_id. now rewrite String.eqb_refl.
Qed.

Lemma find_task_after_insert_other (task_id : string) (row : Task) (s : Session) :
  id row <> task_id ->
  find_task task_id (after_insert row s) = find_task task_id s.
Proof.
  intros Hother. unfold find_task, after_insert; simpl.
  rewrite filter_app. simpl. unfold SQL.has_id at 2.
  apply String.eqb_neq in Hother. rewrite Hother. now rewrite app_nil_r.
Qed.

Lemma updated_row_id (sets : list SQL.assignment) (now : datetime) (t : Task) :
  id (SQL.updated_row sets now t) = id t.
Proof. untouched_column. Qed.

Lemma find_task_after_update (sets : list SQL.assignment) (task_id : string)
    (s : Session) :
  find_task task_id (after_update sets task_id s) =
  option_map (SQL.updated_row sets (clock s)) (find_task task_id s).
Proof.
  unfold find_task, after_update; simpl.
  induction (tasks s) as [| t l IH]; simpl; [reflexivity |].
  destruct (SQL.has_id task_id t) eqn:Hid.
  - unfold SQL.has_id at 1. rewrite updated_row_id.
    unfold SQL.has_id in Hid. now rewrite Hid.
  - now rewrite Hid.
Qed.

Lemma find_task_after_update_other (sets : list SQL.assignment)
    (task_id other : string) (s : Session) :
  other <> task_id ->
  find_task other (after_update sets task_id s) = find_task other s.
Proof.
  intros Hother. unfold find_task, after_update; simpl. f_equal.
  induction (tasks s) as [| t l IH]; simpl; [reflexivity |].
  destruct (SQL.has_id task_id t) eqn:Hid; [| now rewrite IH].
  assert (Hnot : SQL.has_id other t = false).
  { apply String.eqb_eq in Hid. apply String.eqb_neq. congruence. }
  assert (Hnot' : SQL.has_id other (SQL.updated_row sets (clock s) t) = false).
  { unfold SQL.has_id. rewrite updated_row_id. exact Hnot. }
  now rewrite Hnot, Hnot'.
Qed.

(** X1.  A well-formed id that no stored task has: when [task_id] is
    the text of a UUID and is the id of no stored task, [get_task],
    [update_task] and [delete_task] all raise the 404 "Task not found"
    after their SELECT, whoever calls and whatever the patch; nothing is
    written. *)
Theorem unknown_task_not_found (task_id : string) (s : Session) :
  SQL.is_uuid task_id = true ->
  ~ In task_id (map id (tasks s)) ->
  get_task task_id s = (Raise not_found, logged SELECT s)
  /\ (forall request u,
        update_task task_id request u s = (Raise not_found, logged SELECT s))
  /\ (forall u, delete_task task_id u s = (Raise not_found, logged SELECT s)).
Proof.
  intros _ Habsent. pose proof (find_task_absent _ _ Habsent) as Hnone.
  split; [| split]; intros.
  - now rewrite get_task_run, Hnone.
  - now rewrite update_task_run, Hnone.
  - now rewrite delete_task_run, Hnone.
Qed.

Lemma unknown_task_not_found_witness :
  get_task "123e4567-e89b-12d3-a456-426614174000" Sample.session =
  (Raise not_found, logged SELECT Sample.session)
  /\ (forall request u,
        update_task "123e4567-e89b-12d3-a456-426614174000" request u Sample.session =
        (Raise not_found, logged SELECT Sample.session))
  /\ (forall u,
        delete_task "123e4567-e89b-12d3-a456-426614174000" u Sample.session =
        (Raise not_found, logged SELECT Sample.session)).
Proof.
  apply (unknown_task_not_found "123e4567-e89b-12d3-a456-426614174000"
           Sample.session).
  - reflexivity.
  - simpl. intros [E | []]. discriminate E.
Defined.

(** X2.  A task that was created can be read back: after the POST route
    accepts a body under an unused id, [get_task] on the returned [taskId]
    answers the fields of the body, the caller as [clientId], the status
    CREATED, the fee, no tasker and no [updatedAt]; and every task stored
    before is still found as it was. *)
Theorem create_then_get_task (body : TaskCreateRequest.t) (u : CurrentUser)
    (new_id : string) (s : Session) :
  TaskCreateRequest.errors body = [] ->
  existsb (SQL.has_id new_id) (tasks s) = false ->
  exists r s',
    route_create_task body u new_id s = (Ok r, s')
    /\ get_task (cr_taskId r) s' =
       (Ok (task_dict (created_row body u new_id (clock s))), logged SELECT s')
    /\ (forall other, other <> new_id -> find_task other s' = find_task other s).
Proof.
  intros Hvalid Hfresh. do 2 eexists.
  split; [now apply route_create_task_valid |].
  simpl cr_taskId. split.
  - rewrite get_task_run.
    change new_id with (id (created_row body u new_id (clock s))) at 1.
    rewrite find_task_after_insert; [reflexivity |].
    now apply existsb_has_id_false.
  - intros other Hother. apply find_task_after_insert_other.
    simpl. congruence.
Qed.

Lemma create_then_get_task_witness :
  exists r s',
    route_create_task (Sample.draft "Fix my sink" Sample.good_description 100)
      Sample.owner "t2" Sample.session = (Ok r, s')
    /\ get_task (cr_taskId r) s' =
       (Ok (task_dict
              (created_row (Sample.draft "Fix my sink" Sample.good_description 100)
                 Sample.owner "t2" 2000)),
        logged SELECT s')
    /\ (forall other, other <> "t2" ->
                      find_task other s' = find_task other Sample.session).
Proof.
  apply (create_then_get_task
           (Sample.draft "Fix my sink" Sample.good_description 100)
           Sample.owner "t2" Sample.session); reflexivity.
Defined.

Lemma updated_row_stamp (sets : list SQL.assignment) (now : datetime) (t : Task) :
  updatedAt (SQL.updated_row sets now t) = Some now.
Proof.
  unfold SQL.updated_row. now destruct (fold_left SQL.assign sets t).
Qed.

(** X3.  An update can be read back: after a successful [update_task],
    [get_task] answers a task whose columns hold the patch values that
    were supplied and true and the former values otherwise, whose
    [updatedAt] is the time of the update, and whose other columns are as
    before. *)
Theorem update_then_get_task (task_id : string) (request : TaskUpdateRequest.t)
    (u : CurrentUser) (s : Session) (task : Task) (r : MessageResponse)
    (s' : Session) :
  find_task task_id s = Some task ->
  update_task task_id request u s = (Ok r, s') ->
  exists task',
    get_task task_id s' = (Ok (task_dict task'), logged SELECT s')
    /\ update_applied request task task'
    /\ updatedAt task' = Some (clock s)
    /\ update_frame request task_id task task'.
Proof.
  intros Hfind Hrun.
  rewrite update_task_run, Hfind, update_forbidden_never in Hrun.
  destruct (build_update_fields request) as [| a sets] eqn:Hsets;
    [discriminate Hrun |].
  injection Hrun as _ <-. rewrite <- Hsets.
  exists (SQL.updated_row (build_update_fields request) (clock s) task).
  split; [| split; [| split]].
  - now rewrite get_task_run, find_task_after_update, Hfind.
  - apply updated_row_applied.
  - apply updated_row_stamp.
  - pose proof (updated_row_frame request task_id (clock s) task) as Hframe.
    apply find_task_some in Hfind. destruct Hfind as [_ Hid].
    unfold SQL.has_id in Hframe. rewrite Hid, String.eqb_refl in Hframe.
    exact Hframe.
Qed.

Lemma update_then_get_task_witness :
  exists task',
    get_task "t1"
      (after_update (build_update_fields Sample.title_patch) "t1" Sample.session)
    = (Ok (task_dict task'),
       logged SELECT
         (after_update (build_update_fields Sample.title_patch) "t1"
            Sample.session))
    /\ update_applied Sample.title_patch Sample.sink task'
    /\ updatedAt task' = Some (clock Sample.session)
    /\ update_frame Sample.title_patch "t1" Sample.sink task'.
Proof.
  apply (update_then_get_task "t1" Sample.title_patch Sample.owner
           Sample.session Sample.sink updated_response); reflexivity.
Defined.

(** X4.  A cancellation can be read back, and touches nothing else: after
    a successful [delete_task], [get_task] answers the task as it was
    except for [status], which is CANCELLED, and [updatedAt], which is the
    time of the call; the row is still there, and every other task is
    found as before. *)
Theorem delete_then_get_task (task_id : string) (u : CurrentUser) (s : Session)
    (task : Task) (r : MessageResponse) (s' : Session) :
  find_task task_id s = Some task ->
  delete_task task_id u s = (Ok r, s') ->
  get_task task_id s' =
  (Ok (task_dict (set_updatedAt (Some (clock s)) (set_status CANCELLED task))),
   logged SELECT s')
  /\ List.length (tasks s') = List.length (tasks s)
  /\ (forall other, other <> task_id -> find_task other s' = find_task other s).
Proof.
  intros Hfind Hrun. rewrite delete_task_run, Hfind in Hrun.
  destruct (String.eqb (clientId task) (user_id u)); [| discriminate Hrun].
  injection Hrun as _ <-. split; [| split].
  - now rewrite get_task_run, find_task_after_update, Hfind.
  - unfold after_update; simpl. apply length_map.
  - intros other Hother. now apply find_task_after_update_other.
Qed.

Lemma delete_then_get_task_witness :
  get_task "t1" (after_update [SQL.SetStatus CANCELLED] "t1" Sample.session) =
  (Ok (task_dict (set_updatedAt (Some 2000) (set_status CANCELLED Sample.sink))),
   logged SELECT (after_update [SQL.SetStatus CANCELLED] "t1" Sample.session)).
Proof.
  apply (delete_then_get_task "t1" Sample.owner Sample.session Sample.sink
           cancelled_response); reflexivity.
Defined.

(** X5.  Cancelling twice: [delete_task] does not look at the status, so
    the owner's second call on an already cancelled task succeeds like the
    first; the task stays CANCELLED and only its [updatedAt] moves to the
    time of the second call. *)
Theorem delete_task_twice (task_id : string) (u : CurrentUser) (s : Session)
    (task : Task) (r : MessageResponse) (s1 : Session) (later : datetime) :
  find_task task_id s = Some task ->
  delete_task task_id u s = (Ok r, s1) ->
  exists s2,
    delete_task task_id u (at_time later s1) = (Ok cancelled_response, s2)
    /\ find_task task_id s2 =
       Some (set_updatedAt (Some later) (set_status CANCELLED task)).
Proof.
  intros Hfind Hrun. rewrite delete_task_run, Hfind in Hrun.
  destruct (String.eqb (clientId task) (user_id u)) eqn:Hown;
    [| discriminate Hrun].
  injection Hrun as _ <-.
  assert (Hfind1 :
            find_task task_id
              (at_time later (after_update [SQL.SetStatus CANCELLED] task_id s)) =
            Some (SQL.updated_row [SQL.SetStatus CANCELLED] (clock s) task)).
  { change (find_task task_id (at_time later ?x)) with (find_task task_id x).
    now rewrite find_task_after_update, Hfind. }
  eexists. split.
  - rewrite delete_task_run, Hfind1.
    replace (clientId (SQL.updated_row [SQL.SetStatus CANCELLED] (clock s) task))
      with (clientId task) by (symmetry; untouched_column).
    rewrite Hown. reflexivity.
  - rewrite find_task_after_update, Hfind1. simpl.
    now destruct task.
Qed.

Lemma delete_task_twice_witness :
  exists s2,
    delete_task "t1" Sample.owner
      (at_time 3000 (after_update [SQL.SetStatus CANCELLED] "t1" Sample.session))
    = (Ok cancelled_response, s2)
    /\ find_task "t1" s2 =
       Some (set_updatedAt (Some 3000) (set_status CANCELLED Sample.sink)).
Proof.
  apply (delete_task_twice "t1" Sample.owner Sample.session Sample.sink
           cancelled_response); reflexivity.
Defined.

(** ** The primary key *)

Lemma after_update_ids (sets : list SQL.assignment) (task_id : string)
    (s : Session) :
  map id (tasks (after_update sets task_id s)) = map id (tasks s).
Proof. untouched_column. Qed.

(** X6.  No handler of tasks.py breaks the primary key: if no two stored
    tasks share an [id], the same holds after the POST route (whether it
    inserts, is refused by validation or meets a used id), after
    [update_task], after [delete_task] and after [get_task]. *)
Theorem handlers_keep_unique_ids (s : Session) :
  unique_ids s ->
  (forall body u new_id, unique_ids (snd (route_create_task body u new_id s)))
  /\ (forall task_id request u, unique_ids (snd (update_task task_id request u s)))
  /\ (forall task_id u, unique_ids (snd (delete_task task_id u s)))
  /\ (forall task_id, unique_ids (snd (get_task task_id s))).
Proof.
  intros Huniq. unfold unique_ids in *.
  split; [| split; [| split]].
  - intros body u new_id. unfold route_create_task.
    destruct (TaskCreateRequest.errors body); [| exact Huniq].
    rewrite create_task_run.
    destruct (existsb (SQL.has_id new_id) (tasks s)) eqn:Hused; [exact Huniq |].
    simpl. rewrite map_app. simpl.
    apply NoDup_app; [exact Huniq | repeat constructor; intros [] |].
    intros x Hin [E | []]. subst x.
    now apply existsb_has_id_false in Hused.
  - intros task_id request u.
    destruct (update_task_session task_id request u s) as [E | [r E]];
      rewrite E; [exact Huniq |].
    simpl snd. now rewrite after_update_ids.
  - intros task_id u.
    destruct (delete_task_session task_id u s) as [E | E];
      rewrite E; [exact Huniq |].
    now rewrite after_update_ids.
  - intros task_id. rewrite get_task_run.
    now destruct (find_task task_id s).
Qed.

Lemma handlers_keep_unique_ids_witness :
  unique_ids
    (snd (route_create_task (Sample.draft "Fix my sink" Sample.good_description 100)
            Sample.owner "t2" Sample.session)).
Proof.
  apply (handlers_keep_unique_ids Sample.session).
  repeat constructor. intros [].
Defined.

(** X7.  When the generated id is already used, [create_task] answers the
    500 that wraps the error of the INSERT; no row is added and nothing is
    committed. *)
Theorem create_task_used_id (body : TaskCreateRequest.t) (u : CurrentUser)
    (new_id : string) (s : Session) :
  TaskCreateRequest.errors body = [] ->
  In new_id (map id (tasks s)) ->
  exists detail s',
    route_create_task body u new_id s =
    (Raise (HTTPException HTTP_500_INTERNAL_SERVER_ERROR detail), s')
    /\ tasks s' = tasks s
    /\ log s' = (log s ++ [INSERT])%list.
Proof.
  intros Hvalid Hused. unfold route_create_task.
  rewrite Hvalid, create_task_run.
  destruct (existsb (SQL.has_id new_id) (tasks s)) eqn:Hex.
  - do 2 eexists. repeat split.
  - now apply existsb_has_id_false in Hex.
Qed.

Lemma create_task_used_id_witness :
  exists detail s',
    route_create_task (Sample.draft "Fix my sink" Sample.good_description 100)
      Sample.owner "t1" Sample.session =
    (Raise (HTTPException HTTP_500_INTERNAL_SERVER_ERROR detail), s')
    /\ tasks s' = tasks Sample.session
    /\ log s' = (log Sample.session ++ [INSERT])%list.
Proof.
  apply (create_task_used_id
           (Sample.draft "Fix my sink" Sample.good_description 100)
           Sample.owner "t1" Sample.session).
  - reflexivity.
  - left. reflexivity.
Defined.

(** ** What [update_task] does not check *)

(** X8.  [update_task] lets every caller through: its permission test
    is false for every caller and every task, the outcome of a call is
    the same whoever makes it, and no call is answered 403. *)
Theorem update_task_any_caller (task_id : string) (request : TaskUpdateRequest.t)
    (u : CurrentUser) (s : Session) :
  (forall task, update_forbidden u task = false)
  /\ (forall u', update_task task_id request u' s = update_task task_id request u s)
  /\ (forall e s',
        update_task task_id request u s = (Raise e, s') ->
        response_status e <> HTTP_403_FORBIDDEN).
Proof.
  split; [intros task; apply update_forbidden_never |]. split.
  - intros u'. rewrite !update_task_run.
    destruct (find_task task_id s) as [task |]; [| reflexivity].
    now rewrite !update_forbidden_never.
  - intros e s'. rewrite update_task_run.
    destruct (find_task task_id s) as [task |].
    + rewrite update_forbidden_never.
      destruct (build_update_fields request); intros Hrun;
        [injection Hrun as <- _; discriminate | discriminate Hrun].
    + intros Hrun. injection Hrun as <- _. discriminate.
Qed.

(** X9.  [update_task] does not look at the status a task has: a patch
    with a [status] succeeds on any existing task, a CANCELLED or
    COMPLETED one too, and the task then has the status of the patch. *)
Theorem update_task_any_status (task_id : string) (request : TaskUpdateRequest.t)
    (u : CurrentUser) (s : Session) (task : Task) (v : TaskStatus) :
  find_task task_id s = Some task ->
  TaskUpdateRequest.status request = Some v ->
  exists s' task',
    update_task task_id request u s = (Ok updated_response, s')
    /\ find_task task_id s' = Some task'
    /\ status task' = v.
Proof.
  intros Hfind Hstatus.
  assert (Hfields : build_update_fields request <> []).
  { unfold build_update_fields. rewrite Hstatus.
    unfold append_if at 1.
    replace (Py.truthy_status v) with true by (now destruct v).
    intros Hnil. now apply app_eq_nil in Hnil. }
  exists (after_update (build_update_fields request) task_id s).
  exists (SQL.updated_row (build_update_fields request) (clock s) task).
  split; [| split].
  - rewrite update_task_run, Hfind, update_forbidden_never.
    destruct (build_update_fields request); [contradiction | reflexivity].
  - now rewrite find_task_after_update, Hfind.
  - rewrite (applied_status _ _ _ (updated_row_applied request (clock s) task)).
    rewrite Hstatus. simpl. now destruct v.
Qed.

Lemma update_task_any_status_witness :
  exists s' task',
    update_task "t1" (status_patch CREATED) Sample.other_client cancelled_session =
    (Ok updated_response, s')
    /\ find_task "t1" s' = Some task'
    /\ status task' = CREATED.
Proof.
  apply (update_task_any_status "t1" (status_patch CREATED) Sample.other_client
           cancelled_session
           (set_updatedAt (Some 2000) (set_status CANCELLED Sample.sink)));
    reflexivity.
Defined.

Lemma in_append_if_keep {A B} (truthy : A -> bool) (o : option A) (mk : A -> B)
    (l : list B) (b : B) :
  In b l -> In b (append_if truthy o mk l).
Proof.
  intros Hin. unfold append_if.
  destruct o as [v |]; [| exact Hin].
  destruct (truthy v); [| exact Hin].
  apply in_or_app. now left.
Qed.

Lemma in_append_if_new {A B} (truthy : A -> bool) (o : option A) (mk : A -> B)
    (l : list B) (v : A) :
  o = Some v -> truthy v = true -> In (mk v) (append_if truthy o mk l).
Proof.
  intros -> Htrue. unfold append_if. rewrite Htrue.
  apply in_or_app. right. now left.
Qed.

(** X10.  [update_task] does not recompute the fee: after a patch with a
    price that is not zero, the task has the new price and the platform
    fee it had before. *)
Theorem update_task_price_keeps_fee (task_id : string)
    (request : TaskUpdateRequest.t) (u : CurrentUser) (s : Session) (task : Task)
    (p : float) :
  find_task task_id s = Some task ->
  TaskUpdateRequest.priceGHS request = Some p ->
  PrimFloat.eqb p 0 = false ->
  exists s' task',
    update_task task_id request u s = (Ok updated_response, s')
    /\ find_task task_id s' = Some task'
    /\ priceGHS task' = p
    /\ platformFeeGHS task' = platformFeeGHS task.
Proof.
  intros Hfind Hprice Hnonzero.
  pose proof (updated_row_applied request (clock s) task) as Happlied.
  assert (Hfields : build_update_fields request <> []).
  { assert (Hin : In (SQL.SetPriceGHS p) (build_update_fields request)).
    { unfold build_update_fields. do 3 apply in_append_if_keep.
      apply in_append_if_new; [exact Hprice |].
      unfold Py.truthy_float. now rewrite Hnonzero. }
    intros Hnil. now rewrite Hnil in Hin. }
  exists (after_update (build_update_fields request) task_id s).
  exists (SQL.updated_row (build_update_fields request) (clock s) task).
  split; [| split; [| split]].
  - rewrite update_task_run, Hfind, update_forbidden_never.
    destruct (build_update_fields request); [contradiction | reflexivity].
  - now rewrite find_task_after_update, Hfind.
  - rewrite (applied_priceGHS _ _ _ Happlied), Hprice. unfold patched.
    unfold Py.truthy_float. now rewrite Hnonzero.
  - untouched_column.
Qed.

Lemma update_task_price_keeps_fee_witness :
  exists s' task',
    update_task "t1" (Sample.price_patch 200) Sample.owner Sample.session =
    (Ok updated_response, s')
    /\ find_task "t1" s' = Some task'
    /\ priceGHS task' = 200%float
    /\ platformFeeGHS task' = platformFeeGHS Sample.sink.
Proof.
  apply (update_task_price_keeps_fee "t1" (Sample.price_patch 200) Sample.owner
           Sample.session Sample.sink 200); reflexivity.
Defined.

(** ** Which patches are applied *)

Lemma some_truthy_fields (request : TaskUpdateRequest.t) :
  some_truthy request -> build_update_fields request <> [].
Proof.
  intros Hsome.
  assert (Hin : exists a, In a (build_update_fields request)).
  { unfold build_update_fields, some_truthy in *.
    destruct Hsome as [H | [H | [H | [H | [H | [H | [H | H]]]]]]].
    - destruct (TaskUpdateRequest.title request) as [v |] eqn:E;
        [| discriminate H].
      exists (SQL.SetTitle v). do 7 apply in_append_if_keep.
      now apply in_append_if_new.
    - destruct (TaskUpdateRequest.description request) as [v |] eqn:E;
        [| discriminate H].
      exists (SQL.SetDescription v). do 6 apply in_append_if_keep.
      now apply in_append_if_new.
    - destruct (TaskUpdateRequest.scheduledAt request) as [v |] eqn:E;
        [| contradiction].
      exists (SQL.SetScheduledAt v). do 5 apply in_append_if_keep.
      now apply in_append_if_new.
    - destruct (TaskUpdateRequest.durationEstMins request) as [v |] eqn:E;
        [| discriminate H].
      exists (SQL.SetDurationEstMins v). do 4 apply in_append_if_keep.
      now apply in_append_if_new.
    - destruct (TaskUpdateRequest.priceGHS request) as [v |] eqn:E;
        [| discriminate H].
      exists (SQL.SetPriceGHS v). do 3 apply in_append_if_keep.
      now apply in_append_if_new.
    - destruct (TaskUpdateRequest.priority request) as [v |] eqn:E;
        [| contradiction].
      exists (SQL.SetPriority v). do 2 apply in_append_if_keep.
      apply in_append_if_new; [reflexivity | now destruct v].
    - destruct (TaskUpdateRequest.isUrgent request) as [v |] eqn:E;
        [| contradiction].
      exists (SQL.SetIsUrgent v). apply in_append_if_keep.
      now apply in_append_if_new.
    - destruct (TaskUpdateRequest.status request) as [v |] eqn:E;
        [| contradiction].
      exists (SQL.SetStatus v).
      apply in_append_if_new; [reflexivity | now destruct v]. }
  destruct Hin as [a Hin]. intros Hnil. now rewrite Hnil in Hin.
Qed.

(** Every patch is of one of the two kinds. *)
Lemma all_falsy_or_some_truthy (request : TaskUpdateRequest.t) :
  all_falsy request \/ some_truthy request.
Proof.
  unfold some_truthy.
  destruct (Py.truthy_opt Py.truthy_str (TaskUpdateRequest.title request)) eqn:Ht;
    [now right; left |].
  destruct (Py.truthy_opt Py.truthy_str (TaskUpdateRequest.description request))
    eqn:Hd; [now right; right; left |].
  destruct (TaskUpdateRequest.scheduledAt request) eqn:Hs;
    [right; right; right; left; discriminate |].
  destruct (Py.truthy_opt Py.truthy_int (TaskUpdateRequest.durationEstMins request))
    eqn:Hm; [now right; right; right; right; left |].
  destruct (Py.truthy_opt Py.truthy_float (TaskUpdateRequest.priceGHS request))
    eqn:Hp; [now right; right; right; right; right; left |].
  destruct (TaskUpdateRequest.priority request) eqn:Hpr;
    [right; right; right; right; right; right; left; discriminate |].
  destruct (TaskUpdateRequest.isUrgent request) eqn:Hu;
    [right; right; right; right; right; right; right; left; discriminate |].
  destruct (TaskUpdateRequest.status request) eqn:Hst;
    [right; right; right; right; right; right; right; right; discriminate |].
  left. now constructor.
Qed.

(** C10.  On an existing task, for a caller the permission test lets
    through, a patch is of one of two kinds.  A patch whose supplied
    fields are all false (an empty title or description, a duration of 0,
    a price of 0.0) is answered with the 400 of the empty patch and
    writes nothing.  A patch with a field that is supplied and true, or
    with an [isUrgent] that is supplied, be it [false], is applied: the
    call succeeds, and the task then holds, column by column, the patch
    value if that value was supplied and is true ([isUrgent]: if it was
    supplied) and its former value otherwise, so a false value is never
    stored.  Every successful update is of that second kind. *)
Theorem update_task_truthy_fields (task_id : string)
    (request : TaskUpdateRequest.t) (u : CurrentUser) (s : Session) (task : Task) :
  find_task task_id s = Some task ->
  update_permitted u task ->
  (all_falsy request \/ some_truthy request)
  /\ (all_falsy request ->
      exists s',
        update_task task_id request u s = (Raise no_fields, s')
        /\ tasks s' = tasks s
        /\ log s' = (log s ++ [SELECT])%list)
  /\ (some_truthy request ->
      exists s' task',
        update_task task_id request u s = (Ok updated_response, s')
        /\ find_task task_id s' = Some task'
        /\ update_applied request task task'
        /\ (forall b, TaskUpdateRequest.isUrgent request = Some b ->
                      isUrgent task' = b))
  /\ (forall r s',
        update_task task_id request u s = (Ok r, s') ->
        some_truthy request
        /\ Forall2
             (fun t t' =>
                if SQL.has_id task_id t then update_applied request t t' else t' = t)
             (tasks s) (tasks s')).
Proof.
  intros Hfind Hperm.
  split; [apply all_falsy_or_some_truthy |]. split; [| split].
  - intros Hfalsy. exists (logged SELECT s).
    rewrite update_task_run, Hfind, (update_permitted_not_forbidden _ _ Hperm).
    rewrite (all_falsy_no_fields _ Hfalsy). repeat split.
  - intros Hsome. apply some_truthy_fields in Hsome.
    exists (after_update (build_update_fields request) task_id s).
    exists (SQL.updated_row (build_update_fields request) (clock s) task).
    pose proof (updated_row_applied request (clock s) task) as Happlied.
    split; [| split; [| split]].
    + rewrite update_task_run, Hfind, (update_permitted_not_forbidden _ _ Hperm).
      destruct (build_update_fields request); [contradiction | reflexivity].
    + now rewrite find_task_after_update, Hfind.
    + exact Happlied.
    + intros b Hb. rewrite (applied_isUrgent _ _ _ Happlied), Hb. reflexivity.
  - intros r s' Hrun.
    rewrite update_task_run, Hfind, (update_permitted_not_forbidden _ _ Hperm)
      in Hrun.
    destruct (build_update_fields request) as [| a sets] eqn:Hsets;
      [discriminate Hrun |].
    injection Hrun as _ <-. rewrite <- Hsets. split.
    + destruct (all_falsy_or_some_truthy request) as [Hfalsy | Hsome];
        [| exact Hsome].
      apply all_falsy_no_fields in Hfalsy. congruence.
    + unfold after_update; simpl.
      apply Forall2_map_right. intros t.
      destruct (SQL.has_id task_id t); [apply updated_row_applied | reflexivity].
Qed.

Lemma update_task_truthy_fields_witness :
  (exists s',
      update_task "t1" Sample.falsy_patch Sample.owner Sample.session =
      (Raise no_fields, s')
      /\ tasks s' = tasks Sample.session
      /\ log s' = (log Sample.session ++ [SELECT])%list)
  /\ (exists s' task',
        update_task "t1" (urgent_patch false) Sample.owner Sample.session =
        (Ok updated_response, s')
        /\ find_task "t1" s' = Some task'
        /\ update_applied (urgent_patch false) Sample.sink task'
        /\ (forall b, TaskUpdateRequest.isUrgent (urgent_patch false) = Some b ->
                      isUrgent task' = b)).
Proof.
  split.
  - apply (update_task_truthy_fields "t1" Sample.falsy_patch Sample.owner
             Sample.session Sample.sink).
    + reflexivity.
    + left. split; reflexivity.
    + constructor; reflexivity.
  - apply (update_task_truthy_fields "t1" (urgent_patch false) Sample.owner
             Sample.session Sample.sink).
    + reflexivity.
    + left. split; reflexivity.
    + do 6 right. left. discriminate.
Defined.

(** ** Pages *)

Lemma route_get_tasks_valid (q : TaskSearchRequest.t) (s : Session) :
  1 <= TaskSearchRequest.page q ->
  1 <= TaskSearchRequest.limit q <= 50 ->
  uuid_filters q ->
  let page := TaskSearchRequest.page q in
  let limit := TaskSearchRequest.limit q in
  let found := SQL.matching (build_conditions q) s in
  route_get_tasks q s =
  (Ok {| lr_success := true;
         lr_data :=
           map task_dict
             (firstn (Z.to_nat limit)
                (skipn (Z.to_nat ((page - 1) * limit))
                   (SQL.order_by_createdAt_desc found)));
         lr_total := Z.of_nat (List.length found);
         lr_page := page;
         lr_limit := limit;
         lr_totalPages := (Z.of_nat (List.length found) + limit - 1) / limit |},
   mkSession (tasks s) (log s ++ [SELECT; SELECT]) (clock s)).
Proof.
  intros Hpage [Hlimit Hmax] Hids page limit found.
  unfold route_get_tasks, query_errors. fold page limit.
  replace (page <? 1) with false by (symmetry; apply Z.ltb_ge; lia).
  replace (limit <? 1) with false by (symmetry; apply Z.ltb_ge; lia).
  replace (50 <? limit) with false by (symmetry; apply Z.ltb_ge; lia).
  simpl app. cbv iota.
  apply get_tasks_run; [lia | lia | now apply uuid_filters_accepted].
Qed.

Lemma order_by_length (l : list Task) :
  List.length (SQL.order_by_createdAt_desc l) = List.length l.
Proof.
  apply Permutation_length, order_by_permutation.
Qed.

(** X11.  The size of a page: within the bounds of the route and for a
    query whose ids are well formed, the page holds [limit] items, or what
    is left of the matches after the pages before it; a page before the
    last is full and a page after the last is empty. *)
Theorem get_tasks_page_length (q : TaskSearchRequest.t) (s : Session) :
  1 <= TaskSearchRequest.page q ->
  1 <= TaskSearchRequest.limit q <= 50 ->
  uuid_filters q ->
  let page := TaskSearchRequest.page q in
  let limit := TaskSearchRequest.limit q in
  exists r s',
    route_get_tasks q s = (Ok r, s')
    /\ Z.of_nat (List.length (lr_data r)) =
       Z.min limit (Z.max 0 (lr_total r - (page - 1) * limit))
    /\ (page < lr_totalPages r -> Z.of_nat (List.length (lr_data r)) = limit)
    /\ (lr_totalPages r < page -> lr_data r = []).
Proof.
  intros Hpage Hlimit Hids page limit.
  do 2 eexists. split; [now apply route_get_tasks_valid |].
  simpl. fold page limit.
  set (found := SQL.matching (build_conditions q) s).
  pose proof (pages_ceiling (Z.of_nat (List.length found)) limit
                ltac:(lia) ltac:(lia)) as Hceil.
  assert (Hlen :
            Z.of_nat
              (List.length
                 (map task_dict
                    (firstn (Z.to_nat limit)
                       (skipn (Z.to_nat ((page - 1) * limit))
                          (SQL.order_by_createdAt_desc found))))) =
            Z.min limit (Z.max 0 (Z.of_nat (List.length found) - (page - 1) * limit))).
  { rewrite length_map, length_firstn, length_skipn, order_by_length.
    assert (0 <= (page - 1) * limit) by nia. lia. }
  split; [exact Hlen |]. split.
  - intros Hbefore. rewrite Hlen.
    assert (page * limit <=
            ((Z.of_nat (List.length found) + limit - 1) / limit - 1) * limit)
      by nia.
    lia.
  - intros Hafter. apply length_zero_iff_nil.
    apply Nat2Z.inj. rewrite Hlen.
    assert ((Z.of_nat (List.length found) + limit - 1) / limit * limit <=
            (page - 1) * limit) by nia.
    lia.
Qed.

Lemma uuid_filters_none (page limit : Z) : uuid_filters (Sample.all_tasks page limit).
Proof. split; intros v Hv; discriminate Hv. Qed.

Lemma get_tasks_page_length_witness :
  exists r s',
    route_get_tasks (Sample.all_tasks 3 20) Sample.backlog = (Ok r, s')
    /\ Z.of_nat (List.length (lr_data r)) =
       Z.min 20 (Z.max 0 (lr_total r - (3 - 1) * 20)).
Proof.
  destruct (get_tasks_page_length (Sample.all_tasks 3 20) Sample.backlog)
    as [r [s' [Hrun [Hlen _]]]].
  - simpl. lia.
  - simpl. lia.
  - apply uuid_filters_none.
  - exists r, s'. split; [exact Hrun | exact Hlen].
Defined.

Lemma firstn_plus {A} (a b : nat) (l : list A) :
  firstn (a + b) l = (firstn a l ++ firstn b (skipn a l))%list.
Proof.
  revert l. induction a as [| a IH]; intros l; simpl; [reflexivity |].
  destruct l as [| x l]; simpl.
  - now rewrite firstn_nil.
  - now rewrite IH.
Qed.

Lemma concat_chunks {A} (n m : nat) (l : list A) :
  List.concat (map (fun k => firstn n (skipn (k * n) l)) (seq 0 m)) = firstn (m * n) l.
Proof.
  induction m as [| m IH]; [reflexivity |].
  rewrite seq_S, map_app, concat_app, IH. simpl.
  rewrite app_nil_r, (Nat.add_comm n (m * n)).
  symmetry. apply firstn_plus.
Qed.

Lemma page_items_chunk (q : TaskSearchRequest.t) (s : Session) (k : nat) :
  1 <= TaskSearchRequest.limit q <= 50 ->
  uuid_filters q ->
  page_items q s (Z.of_nat (S k)) =
  map task_dict
    (firstn (Z.to_nat (TaskSearchRequest.limit q))
       (skipn (k * Z.to_nat (TaskSearchRequest.limit q))
          (SQL.order_by_createdAt_desc (SQL.matching (build_conditions q) s)))).
Proof.
  intros Hlimit Hids. unfold page_items.
  pose proof (route_get_tasks_valid (with_page q (Z.of_nat (S k))) s) as Hrun.
  cbv zeta in Hrun.
  change (TaskSearchRequest.page (with_page q (Z.of_nat (S k))))
    with (Z.of_nat (S k)) in Hrun.
  change (TaskSearchRequest.limit (with_page q (Z.of_nat (S k))))
    with (TaskSearchRequest.limit q) in Hrun.
  change (build_conditions (with_page q (Z.of_nat (S k))))
    with (build_conditions q) in Hrun.
  rewrite Hrun by (exact Hids || lia). cbn [lr_data].
  replace (Z.to_nat ((Z.of_nat (S k) - 1) * TaskSearchRequest.limit q))
    with (k * Z.to_nat (TaskSearchRequest.limit q))%nat by nia.
  reflexivity.
Qed.

(** X12.  The pages of a query cover its matches once.  Each page is a
    query of its own, and the ORDER BY has no tie-breaker; so let the
    matches have distinct creation times, the ids of the query be well
    formed and the limit be within the bounds of the route.  Then for
    every listing of the matches by creation time, newest first, the
    items of pages 1 to [n], one after the other, are the first
    [n * limit] tasks of that listing; with [n] the [totalPages] of the
    answer they are all the matches, none twice and none left out. *)
Theorem get_tasks_pages_cover (q : TaskSearchRequest.t) (s : Session) (n : nat)
    (listing : list Task) :
  1 <= TaskSearchRequest.limit q <= 50 ->
  uuid_filters q ->
  let limit := TaskSearchRequest.limit q in
  let found := SQL.matching (build_conditions q) s in
  NoDup (map createdAt found) ->
  Permutation listing found ->
  StronglySorted newer_or_same listing ->
  List.concat (map (page_items q s) (pages_upto n)) =
  map task_dict (firstn (n * Z.to_nat limit) listing)
  /\ (Z.of_nat n = (Z.of_nat (List.length found) + limit - 1) / limit ->
      List.concat (map (page_items q s) (pages_upto n)) = map task_dict listing).
Proof.
  intros Hlimit Hids limit found Hdistinct Hperm Hsorted.
  assert (Hlisting : listing = SQL.order_by_createdAt_desc found).
  { apply sorted_listing_unique.
    - apply (Permutation_map createdAt) in Hperm.
      eapply Permutation_NoDup; [apply Permutation_sym; exact Hperm | exact Hdistinct].
    - eapply perm_trans; [exact Hperm |].
      apply Permutation_sym, order_by_permutation.
    - exact Hsorted.
    - apply order_by_sorted. }
  assert (Hcover :
            List.concat (map (page_items q s) (pages_upto n)) =
            map task_dict (firstn (n * Z.to_nat limit) listing)).
  { rewrite Hlisting. unfold pages_upto. rewrite <- seq_shift, !map_map.
    rewrite <- concat_chunks, concat_map, map_map.
    f_equal. apply map_ext. intros k.
    now rewrite page_items_chunk. }
  split; [exact Hcover |].
  intros Hpages. rewrite Hcover. f_equal. apply firstn_all2.
  rewrite (Permutation_length Hperm).
  pose proof (pages_ceiling (Z.of_nat (List.length found)) limit
                ltac:(lia) ltac:(lia)) as Hceil.
  rewrite <- Hpages in Hceil. nia.
Qed.

Lemma get_tasks_pages_cover_witness :
  List.concat
    (map (page_items (Sample.all_tasks 1 20) Sample.backlog) (pages_upto 3)) =
  map task_dict (rev (tasks Sample.backlog)).
Proof.
  apply (get_tasks_pages_cover (Sample.all_tasks 1 20) Sample.backlog 3
           (rev (tasks Sample.backlog))).
  - simpl. lia.
  - apply uuid_filters_none.
  - change (NoDup (map createdAt (map Sample.numbered (seq 1 45)))).
    rewrite map_map.
    apply Finite.Injective_map_NoDup; [exact Nat2Z.inj | apply seq_NoDup].
  - apply Permutation_sym, Permutation_rev.
  - apply Sorted_StronglySorted; [intros a b c; unfold newer_or_same; lia |].
    unfold Sample.backlog. simpl.
    repeat (apply Sorted_cons || apply Sorted_nil
            || apply HdRel_cons || apply HdRel_nil);
      unfold newer_or_same; simpl; lia.
  - reflexivity.
Defined.

(** ** Filters *)





Lemma truthy_str_true (v : string) : Py.truthy_str v = true <-> v <> "".
Proof.
  unfold Py.truthy_str. rewrite negb_true_iff. apply String.eqb_neq.
Qed.









(** Page 2 of 20 of the forty-five sample tasks: tasks 25 down to 6, a
    total of 45, three pages. *)
Example get_tasks_second_page :
  exists r s',
    route_get_tasks (Sample.all_tasks 2 20) Sample.backlog = (Ok r, s')
    /\ map TaskDict.createdAt (lr_data r) =
       [25; 24; 23; 22; 21; 20; 19; 18; 17; 16; 15; 14; 13; 12; 11; 10; 9; 8; 7; 6]
    /\ lr_total r = 45
    /\ lr_totalPages r = 3.
Proof.
  do 2 eexists. split; [vm_compute; reflexivity |].
  repeat split.
Qed.

(** X14.  The bounds of the GET route: a query is refused with a
    validation error exactly when its page is below 1 or its limit is
    outside 1 to 50, and then no statement is sent.  Within the bounds, a
    query whose ids are well formed is answered after exactly two
    SELECTs, and no row is changed; a query with an id the engine refuses
    is not answered: the first SELECT fails and the exception that leaves
    the handler is answered 500. *)
Theorem route_get_tasks_bounds (q : TaskSearchRequest.t) (s : Session) :
  ((exists errs s', route_get_tasks q s = (Raise (RequestValidationError errs), s'))
   <-> (TaskSearchRequest.page q < 1 \/ TaskSearchRequest.limit q < 1
        \/ 50 < TaskSearchRequest.limit q))
  /\ (forall errs s',
        route_get_tasks q s = (Raise (RequestValidationError errs), s') -> s' = s)
  /\ (1 <= TaskSearchRequest.page q ->
      1 <= TaskSearchRequest.limit q <= 50 ->
      (uuid_filters q ->
       exists r s',
         route_get_tasks q s = (Ok r, s')
         /\ tasks s' = tasks s
         /\ log s' = (log s ++ [SELECT; SELECT])%list)
      /\ (existsb SQL.refused (build_conditions q) = true ->
          exists e s',
            route_get_tasks q s = (Raise e, s')
            /\ response_status e = HTTP_500_INTERNAL_SERVER_ERROR
            /\ tasks s' = tasks s
            /\ log s' = (log s ++ [SELECT])%list)).
Proof.
  assert (Hin :
            1 <= TaskSearchRequest.page q ->
            1 <= TaskSearchRequest.limit q <= 50 ->
            route_get_tasks q s = get_tasks q s).
  { intros Hpage [Hlow Hhigh]. unfold route_get_tasks, query_errors.
    replace (TaskSearchRequest.page q <? 1) with false
      by (symmetry; apply Z.ltb_ge; lia).
    replace (TaskSearchRequest.limit q <? 1) with false
      by (symmetry; apply Z.ltb_ge; lia).
    replace (50 <? TaskSearchRequest.limit q) with false
      by (symmetry; apply Z.ltb_ge; lia).
    reflexivity. }
  assert (Hhandler : forall errs s',
             get_tasks q s <> (Raise (RequestValidationError errs), s')).
  { intros errs s'. unfold get_tasks, try_except_shadowed.
    destruct (bind _ _ s) as [[r | e] s0]; unfold attribute_error;
      intros Hrun; discriminate Hrun. }
  assert (Hout :
            TaskSearchRequest.page q < 1 \/ TaskSearchRequest.limit q < 1
            \/ 50 < TaskSearchRequest.limit q ->
            exists errs, route_get_tasks q s = (Raise (RequestValidationError errs), s)).
  { intros Hbad. unfold route_get_tasks, query_errors.
    destruct (Z.ltb_spec (TaskSearchRequest.page q) 1);
      destruct (Z.ltb_spec (TaskSearchRequest.limit q) 1);
      destruct (Z.ltb_spec 50 (TaskSearchRequest.limit q));
      simpl; unfold raise; try (eexists; reflexivity); lia. }
  destruct (Z_lt_le_dec (TaskSearchRequest.page q) 1) as [Hpage | Hpage];
    [| destruct (Z_lt_le_dec (TaskSearchRequest.limit q) 1) as [Hlow | Hlow];
       [| destruct (Z_lt_le_dec 50 (TaskSearchRequest.limit q)) as [Hhigh | Hhigh]]].
  4: { split; [split |].
       - intros [errs [s' Hrun]]. rewrite Hin in Hrun by lia.
         now apply Hhandler in Hrun.
       - lia.
       - split.
         + intros errs s' Hrun. rewrite Hin in Hrun by lia.
           now apply Hhandler in Hrun.
         + intros _ _. split.
           * intros Hids. do 2 eexists.
             split; [apply route_get_tasks_valid; [lia | lia | exact Hids] |].
             now split.
           * intros Hrefused. do 2 eexists.
             split; [rewrite Hin by lia; now apply get_tasks_refused |].
             repeat split. }
  all: destruct Hout as [errs Hrun]; [lia |];
    (split; [split; [lia | intros _; now exists errs, s] |]);
    (split; [intros errs' s' Hrun'; rewrite Hrun in Hrun'; now injection Hrun' |]);
    intros; lia.
Qed.

(** * Phone numbers (app/core/security.py, app/api/v1/auth.py) *)

Lemma filter_chars_length (f : ascii -> bool) (s : string) :
  (String.length (Security.filter_chars f s) <= String.length s)%nat.
Proof.
  induction s as [| c s IH]; simpl; [lia |].
  destruct (f c); simpl; lia.
Qed.

Lemma filter_chars_idempotent (f : ascii -> bool) (s : string) :
  Security.filter_chars f (Security.filter_chars f s) = Security.filter_chars f s.
Proof.
  induction s as [| c s IH]; simpl; [reflexivity |].
  destruct (f c) eqn:Hc; simpl; [| exact IH].
  now rewrite Hc, IH.
Qed.

Lemma filter_chars_fixed_tail (f : ascii -> bool) (c : ascii) (s : string) :
  Security.filter_chars f (String c s) = String c s ->
  Security.filter_chars f s = s.
Proof.
  simpl. destruct (f c).
  - now intros [= ->].
  - intros Hfix. pose proof (filter_chars_length f s) as Hlen.
    rewrite Hfix in Hlen. simpl in Hlen. lia.
Qed.

Lemma startswith_0 (d : string) :
  Security.startswith d "0" = true -> exists d', d = String "0" d'.
Proof.
  unfold Security.startswith. intros Hprefix.
  apply prefix_correct in Hprefix.
  destruct d as [| c d']; [discriminate Hprefix |].
  exists d'. simpl in Hprefix.
  destruct d'; injection Hprefix as ->; reflexivity.
Qed.

Lemma startswith_233 (x : string) : Security.startswith ("233" ++ x) "233" = true.
Proof.
  unfold Security.startswith. apply prefix_correct. simpl. now destruct x.
Qed.

Lemma filter_isdigit_plus (x : string) :
  Security.filter_chars Security.isdigit ("+" ++ x) =
  Security.filter_chars Security.isdigit x.
Proof. reflexivity. Qed.

Lemma filter_isdigit_plus233 (x : string) :
  Security.filter_chars Security.isdigit ("+233" ++ x) =
  "233" ++ Security.filter_chars Security.isdigit x.
Proof. reflexivity. Qed.

(** A number already in the form [+233...] with digits only is kept. *)
Lemma format_plus233 (x : string) :
  Security.filter_chars Security.isdigit x = x ->
  Security.format_phone_number ("+233" ++ x) = "+233" ++ x.
Proof.
  intros Hx. unfold Security.format_phone_number.
  now rewrite filter_isdigit_plus233, Hx, startswith_233.
Qed.

(** The four ways [format_phone_number] answers. *)
Lemma format_phone_number_cases (phone : string) :
  let d := Security.filter_chars Security.isdigit phone in
  (Security.startswith d "233" = true
   /\ Security.format_phone_number phone = "+" ++ d)
  \/ (exists d', d = String "0" d'
                 /\ Security.format_phone_number phone = "+233" ++ d')
  \/ (String.length d = 9%nat
      /\ Security.format_phone_number phone = "+233" ++ d)
  \/ (Security.startswith d "233" = false
      /\ Security.format_phone_number phone = phone).
Proof.
  intros d. unfold Security.format_phone_number. fold d.
  destruct (Security.startswith d "233") eqn:H233; [now left |].
  destruct (Security.startswith d "0") eqn:H0.
  - right; left. destruct (startswith_0 d H0) as [d' Ed].
    exists d'. now rewrite Ed.
  - destruct (Nat.eqb (String.length d) 9) eqn:H9.
    + right; right; left. now apply Nat.eqb_eq in H9.
    + right; right; right. now split.
Qed.

(** X15.  Formatting a phone number twice is formatting it once:
    [format_phone_number] leaves its own results as they are. *)
Theorem format_phone_number_idempotent (phone : string) :
  Security.format_phone_number (Security.format_phone_number phone) =
  Security.format_phone_number phone.
Proof.
  pose proof (filter_chars_idempotent Security.isdigit phone) as Hd.
  destruct (format_phone_number_cases phone)
    as [[H233 E] | [[d' [Ed E]] | [[_ E] | [_ E]]]]; rewrite E.
  - unfold Security.format_phone_number.
    now rewrite filter_isdigit_plus, Hd, H233.
  - apply format_plus233. rewrite Ed in Hd.
    now apply filter_chars_fixed_tail in Hd.
  - now apply format_plus233.
  - exact E.
Qed.

Ltac only_char c :=
  destruct c as [[] [] [] [] [] [] [] []];
  try (intros Hno; cbn in Hno; discriminate Hno).

Lemma re_match_ghana_prefix (p : string) :
  Auth.re_match_ghana p = true ->
  exists rest, p = "+233" ++ rest /\ Auth.digits_then_end 9 rest = true.
Proof.
  unfold Auth.re_match_ghana.
  destruct p as [| c0 p]; [discriminate |]. only_char c0.
  destruct p as [| c1 p]; [discriminate |]. only_char c1.
  destruct p as [| c2 p]; [discriminate |]. only_char c2.
  destruct p as [| c3 p]; [discriminate |]. only_char c3.
  intros Hrest. now exists p.
Qed.

Lemma re_match_ghana_digits (p : string) :
  Auth.re_match_ghana p = true ->
  Security.startswith (Security.filter_chars Security.isdigit p) "233" = true.
Proof.
  intros Hmatch. destruct (re_match_ghana_prefix p Hmatch) as [rest [-> _]].
  rewrite filter_isdigit_plus233. apply startswith_233.
Qed.

Lemma append_empty_right (x : string) : x ++ "" = x.
Proof.
  induction x as [| c x IH]; simpl; [reflexivity | now rewrite IH].
Qed.

Lemma append_length (x y : string) :
  String.length (x ++ y) = (String.length x + String.length y)%nat.
Proof.
  induction x as [| c x IH]; simpl; [reflexivity | now rewrite IH].
Qed.

Lemma filter_chars_append (f : ascii -> bool) (x y : string) :
  Security.filter_chars f (x ++ y) =
  Security.filter_chars f x ++ Security.filter_chars f y.
Proof.
  induction x as [| c x IH]; simpl; [reflexivity |].
  destruct (f c); simpl; now rewrite IH.
Qed.

Lemma filter_chars_weaken (f g : ascii -> bool) (x : string) :
  (forall c, f c = true -> g c = true) ->
  Security.filter_chars f x = x -> Security.filter_chars g x = x.
Proof.
  intros Himp. induction x as [| c x IH]; simpl; [reflexivity |].
  destruct (f c) eqn:Hc.
  - intros [= Hx]. now rewrite (Himp c Hc), IH.
  - intros Hfix. pose proof (filter_chars_length f x) as Hlen.
    rewrite Hfix in Hlen. simpl in Hlen. lia.
Qed.

Lemma re_digit_isdigit (c : ascii) :
  Auth.re_digit c = true -> Security.isdigit c = true.
Proof.
  unfold Auth.re_digit, Security.isdigit. now intros ->.
Qed.

(** A string that ends with a newline is not made of digits. *)
Lemma newline_not_digits (x : string) :
  Security.filter_chars Security.isdigit (x ++ String "010"%char "") <>
  x ++ String "010"%char "".
Proof.
  intros Hfix.
  pose proof (filter_chars_length Security.isdigit x) as Hlen.
  rewrite filter_chars_append in Hfix. simpl in Hfix.
  rewrite append_empty_right in Hfix. rewrite Hfix in Hlen.
  rewrite append_length in Hlen. simpl in Hlen. lia.
Qed.

Lemma digits_then_end_shape (k : nat) (s : string) :
  Auth.digits_then_end k s = true ->
  exists n,
    String.length n = k
    /\ Security.filter_chars Auth.re_digit n = n
    /\ (s = n \/ s = n ++ String "010"%char "").
Proof.
  revert s. induction k as [| k IH]; intros s; simpl.
  - intros Hend. exists "". split; [reflexivity |]. split; [reflexivity |].
    apply orb_true_iff in Hend.
    destruct Hend as [E | E]; apply String.eqb_eq in E; [now left | now right].
  - destruct s as [| c rest]; [discriminate |].
    intros Hstep. apply andb_true_iff in Hstep. destruct Hstep as [Hc Hrest].
    destruct (IH rest Hrest) as [n [Hlen [Hfix Hshape]]].
    exists (String c n). simpl. rewrite Hc, Hfix, Hlen.
    split; [reflexivity |]. split; [reflexivity |].
    destruct Hshape as [-> | ->]; [now left | now right].
Qed.

Lemma validate_phone_accepted_again (v p : string) :
  Auth.validate_phone v = TaskCreateRequest.Valid p ->
  Security.format_phone_number p = p
  /\ Auth.validate_phone p = TaskCreateRequest.Valid p.
Proof.
  unfold Auth.validate_phone at 1.
  destruct (Auth.re_match_ghana (Security.format_phone_number v)) eqn:Hmatch;
    simpl; [| discriminate].
  intros [= <-].
  assert (Hstable : Security.format_phone_number
                      (Security.format_phone_number v) =
                    Security.format_phone_number v).
  { pose proof (filter_chars_idempotent Security.isdigit v) as Hd.
    destruct (format_phone_number_cases v)
      as [[H233 E] | [[d' [Ed E]] | [[_ E] | [_ E]]]]; rewrite E.
    - unfold Security.format_phone_number.
      now rewrite filter_isdigit_plus, Hd, H233.
    - apply format_plus233. rewrite Ed in Hd.
      now apply filter_chars_fixed_tail in Hd.
    - now apply format_plus233.
    - exact E. }
  split; [exact Hstable |].
  unfold Auth.validate_phone. now rewrite Hstable, Hmatch.
Qed.

(** X16.  What the phone validator lets through: an accepted value is
    [+233] followed by exactly nine digits, thirteen characters with no
    newline at the end; formatting it again changes nothing and
    validating it again accepts it as it is. *)
Theorem validate_phone_accepted (v p : string) :
  Auth.validate_phone v = TaskCreateRequest.Valid p ->
  exists n,
    p = "+233" ++ n
    /\ String.length n = 9%nat
    /\ Security.filter_chars Auth.re_digit n = n
    /\ Security.format_phone_number p = p
    /\ Auth.validate_phone p = TaskCreateRequest.Valid p.
Proof.
  unfold Auth.validate_phone at 1.
  destruct (Auth.re_match_ghana (Security.format_phone_number v)) eqn:Hmatch;
    simpl; [| discriminate].
  intros [= <-].
  destruct (re_match_ghana_prefix _ Hmatch) as [rest [Eformat Hrest]].
  destruct (digits_then_end_shape 9 rest Hrest) as [n [Hlen [Hfix Hshape]]].
  pose proof (filter_chars_weaken _ _ n re_digit_isdigit Hfix) as Hdigits.
  pose proof (filter_chars_idempotent Security.isdigit v) as Hd.
  destruct Hshape as [-> | ->].
  - exists n. split; [exact Eformat |]. split; [exact Hlen |].
    split; [exact Hfix |].
    assert (Hstable : Security.format_phone_number
                        (Security.format_phone_number v) =
                      Security.format_phone_number v)
      by (rewrite Eformat; now apply format_plus233).
    split; [exact Hstable |].
    unfold Auth.validate_phone. now rewrite Hstable, Hmatch.
  - exfalso.
    destruct (format_phone_number_cases v)
      as [[_ E] | [[d' [Ed E]] | [[_ E] | [H233 E]]]];
      rewrite E in Eformat.
    + injection Eformat as Eformat. rewrite Eformat in Hd.
      apply (newline_not_digits ("233" ++ n)). exact Hd.
    + injection Eformat as Eformat. rewrite Ed in Hd.
      apply filter_chars_fixed_tail in Hd. rewrite Eformat in Hd.
      now apply (newline_not_digits n).
    + injection Eformat as Eformat. rewrite Eformat in Hd.
      now apply (newline_not_digits n).
    + apply re_match_ghana_digits in Hmatch. rewrite E in Hmatch. congruence.
Qed.

Lemma validate_phone_accepted_witness :
  exists n,
    "+233241234567" = "+233" ++ n
    /\ String.length n = 9%nat
    /\ Security.filter_chars Auth.re_digit n = n
    /\ Security.format_phone_number "+233241234567" = "+233241234567"
    /\ Auth.validate_phone "+233241234567" =
       TaskCreateRequest.Valid "+233241234567".
Proof.
  apply (validate_phone_accepted "024 123 4567" "+233241234567").
  reflexivity.
Defined.

Lemma format_phone_number_by_digits (v v' : string) :
  Security.filter_chars Security.isdigit v' =
  Security.filter_chars Security.isdigit v ->
  Security.format_phone_number v' = Security.format_phone_number v
  \/ (Security.format_phone_number v = v
      /\ Security.startswith (Security.filter_chars Security.isdigit v) "233"
         = false).
Proof.
  intros Hsame. unfold Security.format_phone_number. rewrite Hsame.
  destruct (Security.startswith (Security.filter_chars Security.isdigit v) "233");
    [now left |].
  destruct (Security.startswith (Security.filter_chars Security.isdigit v) "0");
    [now left |].
  destruct (Nat.eqb (String.length (Security.filter_chars Security.isdigit v)) 9);
    [now left | now right].
Qed.

(** X17.  Only the digits of a phone number count: when a value is
    accepted, every value with the same digits in the same order, however
    it is spaced or punctuated, is accepted with the same result. *)
Theorem validate_phone_ignores_separators (v v' p : string) :
  Auth.validate_phone v = TaskCreateRequest.Valid p ->
  Security.filter_chars Security.isdigit v' =
  Security.filter_chars Security.isdigit v ->
  Auth.validate_phone v' = TaskCreateRequest.Valid p.
Proof.
  intros Hvalid Hsame.
  destruct (format_phone_number_by_digits v v' Hsame) as [E | [E H233]].
  - unfold Auth.validate_phone in *. now rewrite E.
  - exfalso. unfold Auth.validate_phone in Hvalid.
    destruct (Auth.re_match_ghana (Security.format_phone_number v)) eqn:Hmatch;
      [| discriminate Hvalid].
    apply re_match_ghana_digits in Hmatch. rewrite E in Hmatch. congruence.
Qed.

Lemma validate_phone_ignores_separators_witness :
  Auth.validate_phone "(024) 123-4567" = TaskCreateRequest.Valid "+233241234567".
Proof.
  apply (validate_phone_ignores_separators "0241234567"); reflexivity.
Defined.

(** * One-time codes (app/core/security.py, app/api/v1/auth.py) *)

Lemma string_of_list_length (l : list ascii) :
  String.length (string_of_list_ascii l) = List.length l.
Proof.
  induction l as [| c l IH]; simpl; [reflexivity | now rewrite IH].
Qed.

Lemma choice_digit (draw : nat) :
  Auth.re_digit (Security.choice Security.string_digits draw) = true.
Proof.
  unfold Security.choice. simpl List.length.
  pose proof (Nat.mod_upper_bound draw 10 ltac:(lia)) as Hlt.
  destruct (draw mod 10)%nat as [| [| [| [| [| [| [| [| [| [| k]]]]]]]]]];
    try reflexivity.
  lia.
Qed.

Lemma digits_of_draws (f : nat -> nat) (l : list nat) :
  Security.filter_chars Auth.re_digit
    (string_of_list_ascii
       (map (fun i => Security.choice Security.string_digits (f i)) l)) =
  string_of_list_ascii
    (map (fun i => Security.choice Security.string_digits (f i)) l).
Proof.
  induction l as [| i l IH]; [reflexivity |].
  cbn [map string_of_list_ascii Security.filter_chars].
  now rewrite choice_digit, IH.
Qed.

(** X18.  A generated code has the length asked for and is made of the
    ten digits only, whatever the random source draws; the six-character
    code of [request_otp] is therefore never empty. *)
Theorem generate_otp_digits (draw : nat -> nat) (length : nat) :
  String.length (Security.generate_otp draw length) = length
  /\ Security.filter_chars Auth.re_digit (Security.generate_otp draw length) =
     Security.generate_otp draw length
  /\ Security.generate_otp draw 6 <> "".
Proof.
  unfold Security.generate_otp. split; [| split].
  - now rewrite string_of_list_length, length_map, length_seq.
  - apply digits_of_draws.
  - discriminate.
Qed.

Lemma find_append {A} (f : A -> bool) (a b : list A) :
  find f (a ++ b) = match find f a with Some x => Some x | None => find f b end.
Proof.
  induction a as [| x a IH]; simpl; [reflexivity |].
  now destruct (f x).
Qed.

Lemma dict_get_del_same (d : Auth.dict) (k : string) :
  Auth.dict_get (Auth.dict_del d k) k = None.
Proof.
  unfold Auth.dict_get, Auth.dict_del.
  induction d as [| [k' v'] d IH]; simpl; [reflexivity |].
  destruct (String.eqb k' k) eqn:Hk; simpl; [exact IH |].
  now rewrite Hk.
Qed.

Lemma dict_get_del_other (d : Auth.dict) (k k' : string) :
  k' <> k -> Auth.dict_get (Auth.dict_del d k) k' = Auth.dict_get d k'.
Proof.
  intros Hother. unfold Auth.dict_get, Auth.dict_del.
  induction d as [| [k0 v0] d IH]; simpl; [reflexivity |].
  destruct (String.eqb_spec k0 k) as [-> | Hk0]; simpl.
  - apply String.eqb_neq in Hother. rewrite String.eqb_sym in Hother.
    now rewrite Hother.
  - destruct (String.eqb k0 k'); [reflexivity | exact IH].
Qed.

Lemma dict_get_set_same (d : Auth.dict) (k v : string) :
  Auth.dict_get (Auth.dict_set d k v) k = Some v.
Proof.
  pose proof (dict_get_del_same d k) as Hdel.
  unfold Auth.dict_get, Auth.dict_set in *. rewrite find_append.
  destruct (find (fun e => String.eqb (fst e) k) (Auth.dict_del d k));
    [discriminate Hdel |].
  simpl. now rewrite String.eqb_refl.
Qed.

Lemma dict_get_none (d : Auth.dict) (k : string) :
  (forall v, ~ In (k, v) d) -> Auth.dict_get d k = None.
Proof.
  intros Hnone. unfold Auth.dict_get.
  destruct (find (fun e => String.eqb (fst e) k) d) as [[k' v'] |] eqn:Hfind;
    [| reflexivity].
  apply find_some in Hfind. destruct Hfind as [Hin Hk]. simpl in Hk.
  apply String.eqb_eq in Hk. subst k'. now apply Hnone in Hin.
Qed.

Lemma verify_otp_right (phone otp : string) (st : Auth.State) :
  Auth.dict_get (Auth.otp_storage st) phone = Some otp ->
  otp <> "" ->
  Auth.verify_otp phone otp st =
  (Ok (Auth.otp_verified phone),
   Auth.mkState (Auth.dict_del (Auth.otp_storage st) phone) (Auth.users st)
     (Auth.statements st) (Auth.stdout st)).
Proof.
  intros Hget Hotp. unfold Auth.verify_otp. rewrite Hget. simpl.
  apply truthy_str_true in Hotp. now rewrite Hotp, String.eqb_refl.
Qed.

Lemma verify_otp_wrong (phone guess : string) (st : Auth.State) :
  Auth.dict_get (Auth.otp_storage st) phone <> Some guess ->
  Auth.verify_otp phone guess st = (Raise Auth.invalid_otp, st).
Proof.
  intros Hget. unfold Auth.verify_otp.
  destruct (Auth.dict_get (Auth.otp_storage st) phone) as [stored |];
    [| reflexivity].
  simpl. destruct (String.eqb_spec stored guess) as [-> | _].
  - now contradiction Hget.
  - now rewrite orb_true_r.
Qed.

Lemma route_request_otp_valid (v p : string) (draw : nat -> nat) (st : Auth.State) :
  Auth.validate_phone v = TaskCreateRequest.Valid p ->
  Auth.route_request_otp v draw st = Auth.request_otp p draw st.
Proof.
  intros Hvalid. unfold Auth.route_request_otp. now rewrite Hvalid.
Qed.

Lemma generate_otp_nonempty (draw : nat -> nat) : Security.generate_otp draw 6 <> "".
Proof. discriminate. Qed.

(** X19.  A code works once.  After the route of [request_otp] accepts a
    phone number, [verify_otp] with the formatted number and the code
    that was generated succeeds and removes the code; the same call made
    again is answered 400.  Neither call touches the users. *)
Theorem otp_single_use (v p : string) (draw : nat -> nat) (st : Auth.State) :
  Auth.validate_phone v = TaskCreateRequest.Valid p ->
  let otp := Security.generate_otp draw 6 in
  let st1 := snd (Auth.route_request_otp v draw st) in
  exists st2,
    Auth.verify_otp p otp st1 = (Ok (Auth.otp_verified p), st2)
    /\ Auth.verify_otp p otp st2 = (Raise Auth.invalid_otp, st2)
    /\ Auth.users st2 = Auth.users st.
Proof.
  intros Hvalid otp st1. subst st1.
  rewrite (route_request_otp_valid v p draw st Hvalid).
  unfold Auth.request_otp. cbn [snd]. fold otp.
  eexists. split; [| split].
  - apply verify_otp_right; [apply dict_get_set_same | apply generate_otp_nonempty].
  - apply verify_otp_wrong. cbn [Auth.otp_storage].
    now rewrite dict_get_del_same.
  - reflexivity.
Qed.

Lemma otp_single_use_witness :
  let otp := Security.generate_otp (fun i => 7 * i + 3)%nat 6 in
  let st1 :=
    snd (Auth.route_request_otp "024 123 4567" (fun i => 7 * i + 3)%nat
           (Auth.mkState [] [] [] [])) in
  exists st2,
    Auth.verify_otp "+233241234567" otp st1 =
    (Ok (Auth.otp_verified "+233241234567"), st2)
    /\ Auth.verify_otp "+233241234567" otp st2 = (Raise Auth.invalid_otp, st2)
    /\ Auth.users st2 = [].
Proof.
  apply (otp_single_use "024 123 4567" "+233241234567" (fun i => 7 * i + 3)%nat
           (Auth.mkState [] [] [] [])).
  reflexivity.
Defined.

(** X20.  A wrong code costs nothing: [verify_otp] with a code other than
    the stored one is answered 400 and leaves the state as it was, so
    after any number of wrong guesses the right code is still accepted.
    No attempt is counted. *)
Theorem otp_wrong_guesses (phone otp : string) (guesses : list string)
    (st : Auth.State) :
  Auth.dict_get (Auth.otp_storage st) phone = Some otp ->
  otp <> "" ->
  Forall (fun guess => guess <> otp) guesses ->
  Forall (fun guess => Auth.verify_otp phone guess st = (Raise Auth.invalid_otp, st))
    guesses
  /\ Auth.verify_each phone guesses st = st
  /\ fst (Auth.verify_otp phone otp (Auth.verify_each phone guesses st)) =
     Ok (Auth.otp_verified phone).
Proof.
  intros Hget Hotp Hwrong.
  assert (Heach : forall guess, guess <> otp ->
                   Auth.verify_otp phone guess st = (Raise Auth.invalid_otp, st)).
  { intros guess Hguess. apply verify_otp_wrong. rewrite Hget. congruence. }
  assert (Hsame : Auth.verify_each phone guesses st = st).
  { unfold Auth.verify_each.
    induction Hwrong as [| guess guesses Hguess _ IH]; simpl; [reflexivity |].
    now rewrite (Heach guess Hguess). }
  split; [| split].
  - eapply Forall_impl; [| exact Hwrong]. exact Heach.
  - exact Hsame.
  - rewrite Hsame. now rewrite verify_otp_right.
Qed.

Lemma otp_wrong_guesses_witness :
  let st := Auth.mkState [("+233241234567", "123456")] [] [] [] in
  Auth.verify_each "+233241234567" ["000000"; "111111"; "999999"] st = st
  /\ fst (Auth.verify_otp "+233241234567" "123456"
            (Auth.verify_each "+233241234567" ["000000"; "111111"; "999999"] st)) =
     Ok (Auth.otp_verified "+233241234567").
Proof.
  intros st.
  apply (otp_wrong_guesses "+233241234567" "123456"
           ["000000"; "111111"; "999999"] st).
  - reflexivity.
  - discriminate.
  - repeat constructor; discriminate.
Defined.

(** X21.  A new request replaces the code: after two accepted requests
    for the same number, the code of the second is accepted and the code
    of the first, when it differs, is answered 400. *)
Theorem otp_replaced_by_new_request (v p : string) (draw1 draw2 : nat -> nat)
    (st : Auth.State) :
  Auth.validate_phone v = TaskCreateRequest.Valid p ->
  let otp1 := Security.generate_otp draw1 6 in
  let otp2 := Security.generate_otp draw2 6 in
  let st1 := snd (Auth.route_request_otp v draw1 st) in
  let st2 := snd (Auth.route_request_otp v draw2 st1) in
  fst (Auth.verify_otp p otp2 st2) = Ok (Auth.otp_verified p)
  /\ (otp1 <> otp2 -> Auth.verify_otp p otp1 st2 = (Raise Auth.invalid_otp, st2)).
Proof.
  intros Hvalid otp1 otp2 st1 st2. subst st1 st2.
  rewrite !(route_request_otp_valid v p _ _ Hvalid).
  unfold Auth.request_otp. cbn [snd Auth.otp_storage]. fold otp1 otp2.
  split.
  - rewrite verify_otp_right;
      [reflexivity | apply dict_get_set_same | apply generate_otp_nonempty].
  - intros Hdiff. apply verify_otp_wrong. cbn [Auth.otp_storage].
    rewrite dict_get_set_same. congruence.
Qed.

Lemma otp_replaced_by_new_request_witness :
  let st1 :=
    snd (Auth.route_request_otp "0241234567" (fun i => i) (Auth.mkState [] [] [] [])) in
  let st2 := snd (Auth.route_request_otp "0241234567" (fun i => i + 4)%nat st1) in
  fst (Auth.verify_otp "+233241234567" "456789" st2) =
  Ok (Auth.otp_verified "+233241234567")
  /\ Auth.verify_otp "+233241234567" "012345" st2 = (Raise Auth.invalid_otp, st2).
Proof.
  intros st1 st2.
  destruct (otp_replaced_by_new_request "0241234567" "+233241234567"
              (fun i => i) (fun i => i + 4)%nat (Auth.mkState [] [] [] []) eq_refl)
    as [Hnew Hold].
  split; [exact Hnew | apply Hold; discriminate].
Defined.

Lemma in_dict_del (d : Auth.dict) (k k' v : string) :
  In (k', v) (Auth.dict_del d k) -> In (k', v) d.
Proof.
  unfold Auth.dict_del. intros Hin. now apply filter_In in Hin.
Qed.

(** X22.  [verify_otp] looks the phone number up as it was sent, while
    [request_otp] files the code under the formatted number.  When every
    stored code is filed under a formatted number, this also holds after
    an accepted request; and a caller who typed the number in another
    form and sends that same text to [verify_otp] is answered 400 for
    every code, the generated one included. *)
Theorem verify_otp_needs_formatted_phone (v p : string) (draw : nat -> nat)
    (st : Auth.State) :
  Auth.formatted_keys st ->
  Auth.validate_phone v = TaskCreateRequest.Valid p ->
  v <> p ->
  let st1 := snd (Auth.route_request_otp v draw st) in
  Auth.formatted_keys st1
  /\ forall code, Auth.verify_otp v code st1 = (Raise Auth.invalid_otp, st1).
Proof.
  intros Hkeys Hvalid Hraw st1. subst st1.
  rewrite (route_request_otp_valid v p draw st Hvalid).
  unfold Auth.request_otp. cbn [snd].
  assert (Hkeys1 :
            forall k c,
              In (k, c)
                (Auth.dict_set (Auth.otp_storage st) p (Security.generate_otp draw 6)) ->
              Auth.validate_phone k = TaskCreateRequest.Valid k).
  { intros k c Hin. unfold Auth.dict_set in Hin. apply in_app_or in Hin.
    destruct Hin as [Hin | [[= <- _] | []]].
    - apply in_dict_del in Hin. now apply (Hkeys k c).
    - destruct (validate_phone_accepted_again v p Hvalid) as [_ Hagain].
      exact Hagain. }
  split; [exact Hkeys1 |].
  intros code. apply verify_otp_wrong. cbn [Auth.otp_storage].
  rewrite dict_get_none; [discriminate |].
  intros c Hin. apply Hkeys1 in Hin. congruence.
Qed.

Lemma verify_otp_needs_formatted_phone_witness :
  let st1 :=
    snd (Auth.route_request_otp "0241234567" (fun i => i) (Auth.mkState [] [] [] [])) in
  Auth.formatted_keys st1
  /\ Auth.verify_otp "0241234567" "012345" st1 = (Raise Auth.invalid_otp, st1).
Proof.
  intros st1.
  destruct (verify_otp_needs_formatted_phone "0241234567" "+233241234567"
              (fun i => i) (Auth.mkState [] [] [] [])) as [Hkeys Hraw].
  - intros k c [].
  - reflexivity.
  - discriminate.
  - split; [exact Hkeys | exact (Hraw "012345")].
Defined.
